(** * Windowing of gapped time series: gordo/machine/model/models.py

    A shallow embedding of the chunk-aware window generator
    ([GordoTimeseriesGenerator]), of the registry of generator types
    ([TimeseriesGeneratorTypes]), of the lookahead padding ([pad_x_and_y],
    [DefaultTimeseriesGenertor]) and of the entry of
    [KerasLSTMBaseEstimator.fit], together with the properties of the
    specification that concern them.

    Conventions.
    - A [pd.Timestamp] and a [pd.Timedelta] are integers (nanoseconds).
    - A two-dimensional array is the list of its rows; a [pd.DataFrame] is the
      list of its (timestamp, row) pairs, in storage order.
    - The scalars of the arrays are of one type, whatever their dtype; an
      array has a dtype, and a scalar is converted to a dtype where numpy
      converts it.
    - Python exceptions are the constructors of [exn]; a call that can raise
      returns a [result].
    - Python integers are [Z]; [//] is [Z.div] (both round towards minus
      infinity), with the division by zero written out. *)

From Stdlib Require Import ZArith Lia List String.
From stdpp Require Import base option list gmap strings.

Open Scope Z_scope.

(** ** Exceptions and results *)

Definition Timestamp := Z.
Definition Timedelta := Z.

(** [TimeseriesChunk]: the dataclass of models.py. *)
Record TimeseriesChunk := mkChunk {
  start_ts : Timestamp;
  end_ts : Timestamp;
  size : Z
}.

#[global] Instance TimeseriesChunk_eq_dec : EqDecision TimeseriesChunk.
Proof. solve_decision. Defined.

(** The text of an exception, one constructor per [raise] of the code (and per
    raise of Keras, numpy and Python that the code can meet). *)
Inductive message :=
| DataNotDataFrame
| TargetsNotDataFrame
| DataTargetsLength (data_length targets_length : Z)
| TooSmallOrRandomOrder (chunks : list TimeseriesChunk)
| NegativeLookahead (lookahead : Z)
| LookbackWindowTooLarge
| UnspecifiedType
| UnknownType
| TypeAlreadyExists (type_name : string)
| KerasDataTargetsLength (data_length targets_length : Z)
| KerasStartIndex (start_index end_index : Z)
| LenNegative
| NegativeDimensions
| CouldNotBroadcast
| RandintLowHigh
| GlobalIndex (index : Z)
| RowOutOfBounds (row size : Z)
| BadArgument (name : string)
| NotModelled (name : string).

Inductive exn :=
| ValueError (m : message)
| IndexError (m : message)
| TypeError (m : message)
| ZeroDivisionError.

Inductive result (T : Type) :=
| Ok (x : T)
| Raise (e : exn).
Arguments Ok {T} x.
Arguments Raise {T} e.

#[global] Instance result_ret : MRet result := fun _ x => Ok x.
#[global] Instance result_bind : MBind result := fun _ _ f m =>
  match m with
  | Ok x => f x
  | Raise e => Raise e
  end.
#[global] Instance result_fmap : FMap result := fun _ _ f m =>
  match m with
  | Ok x => Ok (f x)
  | Raise e => Raise e
  end.

Definition is_Ok {T} (r : result T) : Prop :=
  match r with Ok _ => True | Raise _ => False end.

(** [try: ... except ValueError: ...]: only a [ValueError] is caught. *)
Definition is_ValueError (e : exn) : bool :=
  match e with ValueError _ => true | _ => false end.

(** ** Python sequences *)

Definition len {A} (l : list A) : Z := Z.of_nat (length l).

(** A slice bound, as Python normalises it: a negative bound counts from the
    end, and the bound is clipped to [0, len]. *)
Definition slice_bound (n i : Z) : Z :=
  if i <? 0 then Z.max (i + n) 0 else Z.min i n.

(** [l[start:stop]] *)
Definition py_slice {A} (l : list A) (start stop : Z) : list A :=
  let a := slice_bound (len l) start in
  let b := slice_bound (len l) stop in
  take (Z.to_nat (b - a)) (drop (Z.to_nat a) l).

(** [l[:stop]] and [l[start:]] *)
Definition py_slice_to {A} (l : list A) (stop : Z) : list A :=
  py_slice l 0 stop.
Definition py_slice_from {A} (l : list A) (start : Z) : list A :=
  py_slice l start (len l).

(** [l[i]]: a negative index counts from the end; out of bounds raises
    [IndexError]. *)
Definition py_index {A} (l : list A) (i : Z) : result A :=
  let n := len l in
  match l !! Z.to_nat (if i <? 0 then i + n else i) with
  | Some x => if (i <? - n) then Raise (IndexError (RowOutOfBounds i n)) else Ok x
  | None => Raise (IndexError (RowOutOfBounds i n))
  end.

(** [np.arange(a, b)], with [b - a] elements when [a < b]. *)
Definition arange (a b : Z) : list Z :=
  (fun k => a + Z.of_nat k) <$> seq 0 (Z.to_nat (b - a)).

(** [[f(x) for x in l]] where [f] can raise: the first exception wins. *)
Fixpoint map_result {A B} (f : A -> result B) (l : list A) : result (list B) :=
  match l with
  | [] => Ok []
  | x :: l' => y ← f x; ys ← map_result f l'; Ok (y :: ys)
  end.

(** [sum(...)] over integers. *)
Definition py_sum (l : list Z) : Z := fold_right Z.add 0 l.

Section Windowing.

(** The scalars of the arrays, of whatever numpy dtype, and the value
    [0.] that [pad_sequences] fills with. *)
Variable F : Type.
Variable zero : F.

(** [np.random.randint(low, high, size)], for [low < high] and [0 <= size]:
    the rows a shuffling generator draws. *)
Variable randint : Z -> Z -> Z -> list Z.

(** [pd.to_timedelta] on a string. *)
Variable to_timedelta : string -> result Timedelta.

Definition row := list F.
Definition ndarray := list row.

(** The numpy dtypes, the dtype of an array ([a.dtype]) and the conversion
    of a scalar to a dtype. *)
Context {dtype : Type} `{EqDecision dtype}.
Variable dtype_of : ndarray -> dtype.
Variable astype : dtype -> F -> F.

(** [np.asarray(a, dtype=d)]: [a] itself when it has the dtype [d], its
    scalars converted to [d] otherwise. *)
Definition asarray (a : ndarray) (d : dtype) : ndarray :=
  if decide (dtype_of a = d) then a
  else (fun r : row => astype d <$> r) <$> a.

(** What the generators receive as [data] and [targets]:
    [Union[pd.DataFrame, np.ndarray]]. *)
Inductive Table :=
| DataFrame (rows : list (Timestamp * row))
| NdArray (rows : ndarray).

Definition index (df : list (Timestamp * row)) : list Timestamp := fst <$> df.
Definition values (df : list (Timestamp * row)) : ndarray := snd <$> df.

(** [df[start_ts : end_ts]]: the rows whose label lies between the two
    bounds, both included. This is what pandas returns on an index that
    increases ([monotonic_increasing]); on another index pandas looks the
    two labels up by position, or raises [KeyError], which is not written
    here: a property that depends on the rows of the slice is stated for
    increasing indexes. *)
Definition loc_slice (df : list (Timestamp * row)) (a b : Timestamp)
  : list (Timestamp * row) :=
  filter (fun r => a <= r.1 <= b) df.

Fixpoint monotonic_increasing (l : list Timestamp) : bool :=
  match l with
  | [] => true
  | x :: l' =>
      match l' with
      | [] => true
      | y :: _ => (x <=? y) && monotonic_increasing l'
      end
  end.

(** ** Keras: [TimeseriesGenerator] and [pad_sequences]

    Both come from [tensorflow.keras.preprocessing.sequence]. They are
    written here as the code of models.py calls them: [sampling_rate],
    [stride], [start_index], [end_index] and [reverse] keep their defaults
    (1, 1, 0, None, False), which no call of models.py changes. *)

(** The attributes that [TimeseriesGenerator.__init__] sets. *)
Record TimeseriesGenerator := mkTimeseriesGenerator {
  tg_data : ndarray;
  tg_targets : ndarray;
  tg_length : Z;
  tg_start_index : Z;
  tg_end_index : Z;
  tg_shuffle : bool;
  tg_batch_size : Z
}.

(** [TimeseriesGenerator.__init__(data, targets, length, shuffle=shuffle,
    batch_size=batch_size)]: data and targets of the same length, and at
    least one row after the first window. *)
Definition TimeseriesGenerator_init (data targets : ndarray)
    (length batch_size : Z) (shuffle : bool) : result TimeseriesGenerator :=
  if negb (len data =? len targets) then
    Raise (ValueError (KerasDataTargetsLength (len data) (len targets)))
  else
    let start_index := 0 + length in
    let end_index := len data - 1 in
    if start_index >? end_index then
      Raise (ValueError (KerasStartIndex start_index end_index))
    else
      Ok (mkTimeseriesGenerator data targets length start_index end_index
            shuffle batch_size).

(** [TimeseriesGenerator.__len__]: the number of batches. *)
Definition TimeseriesGenerator_len__ (g : TimeseriesGenerator) : result Z :=
  if tg_batch_size g =? 0 then Raise ZeroDivisionError
  else Ok ((tg_end_index g - tg_start_index g + tg_batch_size g)
           / tg_batch_size g).

(** [len(generator)]: Python refuses a negative [__len__]. *)
Definition py_len (g : TimeseriesGenerator) : result Z :=
  n ← TimeseriesGenerator_len__ g;
  if n <? 0 then Raise (ValueError LenNegative) else Ok n.

(** [np.random.randint(low, high, size=size)], with its two refusals. *)
Definition np_random_randint (low high size : Z) : result (list Z) :=
  if high <=? low then Raise (ValueError RandintLowHigh)
  else if size <? 0 then Raise (ValueError NegativeDimensions)
  else Ok (randint low high size).

(** A batch: the windows and, for each, its target row. *)
Definition batch : Type := list ndarray * list row.

(** [TimeseriesGenerator.__getitem__] *)
Definition TimeseriesGenerator_getitem (g : TimeseriesGenerator) (index : Z)
  : result batch :=
  rows ← (if tg_shuffle g then
            np_random_randint (tg_start_index g) (tg_end_index g + 1)
              (tg_batch_size g)
          else
            let i := tg_start_index g + tg_batch_size g * index in
            Ok (arange i (Z.min (i + tg_batch_size g) (tg_end_index g + 1))));
  let samples := (fun row => py_slice (tg_data g) (row - tg_length g) row)
                   <$> rows in
  targets ← map_result (fun row => py_index (tg_targets g) row) rows;
  Ok (samples, targets).

(** ** [GordoTimeseriesGenerator] *)

(** [TimeseriesGeneratorContainer]: the dataclass of models.py; [length_] is
    its field [length], the number of batches of the generator. *)
Record TimeseriesGeneratorContainer := mkContainer {
  generator : TimeseriesGenerator;
  chunk : TimeseriesChunk;
  length_ : Z
}.

(** The variables of the loop of [find_consecutive_chunks]. [prev_ts] and
    [start_ts] are assigned together: both [None], or both a timestamp. *)
Record chunk_scan := mkScan {
  chunks : list TimeseriesChunk;
  prev_start : option (Timestamp * Timestamp);
  start_i : Z
}.

(** The body of the loop of [find_consecutive_chunks], for the row [i] of
    timestamp [dt]. *)
Definition chunk_scan_step (step : Timedelta) (st : chunk_scan)
    (i_dt : Z * Timestamp) : chunk_scan :=
  let '(i, dt) := i_dt in
  match prev_start st with
  | None => mkScan (chunks st) (Some (dt, dt)) (start_i st)
  | Some (prev_ts, start_ts) =>
      if dt - prev_ts =? step then
        mkScan (chunks st) (Some (dt, start_ts)) (start_i st)
      else
        mkScan (chunks st ++ [mkChunk start_ts prev_ts (i - start_i st)])
               None i
  end.

(** [enumerate(l)] *)
Definition enumerate {A} (l : list A) : list (Z * A) :=
  imap (fun i x => (Z.of_nat i, x)) l.

(** [GordoTimeseriesGenerator.find_consecutive_chunks], with [self.step]. *)
Definition find_consecutive_chunks (step : Timedelta)
    (df : list (Timestamp * row)) : list TimeseriesChunk :=
  let st := fold_left (chunk_scan_step step) (enumerate (index df))
                      (mkScan [] None 0) in
  match prev_start st with
  | Some (prev_ts, start_ts) =>
      chunks st ++ [mkChunk start_ts prev_ts (len (index df) - start_i st)]
  | None => chunks st
  end.

(** The variables of the loop of [create_generator_containers]: the local
    [length], which the loop assigns, [self.failed_chunks] and the list under
    construction. *)
Record containers_scan := mkContainersScan {
  cs_length : Z;
  cs_failed_chunks : list TimeseriesChunk;
  cs_generator_containers : list TimeseriesGeneratorContainer
}.

(** The body of the loop of [create_generator_containers], for one chunk. *)
Definition create_generator_containers_step
    (data targets : list (Timestamp * row)) (batch_size : Z) (shuffle : bool)
    (st : containers_scan) (chunk : TimeseriesChunk) : result containers_scan :=
  let gen_data := values (loc_slice data (start_ts chunk) (end_ts chunk)) in
  let gen_target := values (loc_slice targets (start_ts chunk) (end_ts chunk)) in
  match TimeseriesGenerator_init gen_data gen_target (cs_length st)
          batch_size shuffle with
  | Raise e =>
      if is_ValueError e then
        Ok (mkContainersScan (cs_length st)
              (cs_failed_chunks st ++ [chunk]) (cs_generator_containers st))
      else Raise e
  | Ok generator =>
      length ← py_len generator;
      Ok (mkContainersScan length (cs_failed_chunks st)
            (cs_generator_containers st ++ [mkContainer generator chunk length]))
  end.

(** A [for] loop whose body can raise, on the variables [st]. *)
Fixpoint for_each {S A} (f : S -> A -> result S) (l : list A) (st : S)
  : result S :=
  match l with
  | [] => Ok st
  | x :: l' => st' ← f st x; for_each f l' st'
  end.

(** [GordoTimeseriesGenerator.create_generator_containers]: the final
    variables of the loop, of which the method returns the containers. *)
Definition create_generator_containers (consecutive_chunks : list TimeseriesChunk)
    (data targets : list (Timestamp * row)) (length batch_size : Z)
    (shuffle : bool) : result containers_scan :=
  for_each (create_generator_containers_step data targets batch_size shuffle)
           consecutive_chunks (mkContainersScan length [] []).

(** The attributes that [GordoTimeseriesGenerator.__init__] sets. *)
Record GordoTimeseriesGenerator := mkGordo {
  step : Timedelta;
  consecutive_chunks : list TimeseriesChunk;
  failed_chunks : list TimeseriesChunk;
  generators_containers : list TimeseriesGeneratorContainer;
  lookahead : Z
}.

(** [GordoTimeseriesGenerator.__init__]; [step] is the [pd.Timedelta], after
    [pd.to_timedelta] when a string was given. *)
Definition GordoTimeseriesGenerator_init (data targets : Table)
    (length batch_size : Z) (shuffle : bool) (step : Timedelta)
    (lookahead : Z) : result GordoTimeseriesGenerator :=
  match data with
  | NdArray _ => Raise (ValueError DataNotDataFrame)
  | DataFrame data =>
      match targets with
      | NdArray _ => Raise (ValueError TargetsNotDataFrame)
      | DataFrame targets =>
          if negb (len data =? len targets) then
            Raise (ValueError (DataTargetsLength (len data) (len targets)))
          else
            let consecutive_chunks := find_consecutive_chunks step data in
            st ← create_generator_containers consecutive_chunks data targets
                   length batch_size shuffle;
            match cs_generator_containers st with
            | [] => Raise (ValueError (TooSmallOrRandomOrder consecutive_chunks))
            | _ :: _ =>
                Ok (mkGordo step consecutive_chunks (cs_failed_chunks st)
                      (cs_generator_containers st) lookahead)
            end
      end
  end.

(** [GordoTimeseriesGenerator.__len__] *)
Definition GordoTimeseriesGenerator_len (g : GordoTimeseriesGenerator) : Z :=
  py_sum (length_ <$> generators_containers g).

(** The loop of [GordoTimeseriesGenerator.__getitem__], from the running
    bound [i]: the container the index falls in and the local index, or the
    [IndexError] after the loop. *)
Fixpoint locate (containers : list TimeseriesGeneratorContainer) (i index : Z)
  : result (TimeseriesGeneratorContainer * Z) :=
  match containers with
  | [] => Raise (IndexError (GlobalIndex index))
  | container :: rest =>
      let new_i := i + length_ container in
      if index <=? new_i then
        let gen_i := index - i - 1 in
        Ok (container, gen_i)
      else locate rest new_i index
  end.

(** [GordoTimeseriesGenerator.__getitem__]: [container.generator[gen_i]] for
    the container found. *)
Definition GordoTimeseriesGenerator_getitem (g : GordoTimeseriesGenerator)
    (index : Z) : result batch :=
  '(container, gen_i) ← locate (generators_containers g) (-1) index;
  TimeseriesGenerator_getitem (generator container) gen_i.

(** ** Lookahead padding *)

(** The values of [padding] and [truncating]. *)
Inductive side := pre | post.

(** The all-zero row [np.full(..., value, dtype=d)] fills with: the value
    [0.] in the dtype [d], in the sample shape of the first row. An empty
    array has none and pads to zero scalars, which are zero-width rows
    here. *)
Definition zero_row (s : ndarray) (d : dtype) : row :=
  match s with
  | [] => []
  | r :: _ => (fun _ => astype d zero) <$> r
  end.

(** [pad_sequences([s], maxlen=maxlen, dtype=d, padding=...,
    truncating=...)[0]]. [np.full] refuses a negative [maxlen]; an empty [s]
    is skipped; the truncated sequence goes through [np.asarray(trunc,
    dtype=d)], written here before the slice (a slice has the dtype of its
    array, and the conversion goes scalar by scalar); its assignment into
    the zero array fails to broadcast when it is longer than the array and
    not of length 1, which needs [maxlen = 0] and [truncating='pre'], where
    [s[-0:]] is all of [s]. *)
Definition pad_sequences (s : ndarray) (maxlen : Z) (d : dtype)
    (padding truncating : side) : result ndarray :=
  if maxlen <? 0 then Raise (ValueError NegativeDimensions)
  else
    let x := replicate (Z.to_nat maxlen) (zero_row s d) in
    if len s =? 0 then Ok x
    else
      let s' := asarray s d in
      let trunc := match truncating with
                   | pre => py_slice_from s' (- maxlen)
                   | post => py_slice_to s' maxlen
                   end in
      if len trunc <=? maxlen then
        let zeros := replicate (Z.to_nat (maxlen - len trunc)) (zero_row s d) in
        Ok (match padding with
            | post => trunc ++ zeros
            | pre => zeros ++ trunc
            end)
      else if len trunc =? 1 then Ok x
      else Raise (ValueError CouldNotBroadcast).

(** [pad_x_and_y]: both arrays are padded in the dtype of [X]
    ([dtype=X.dtype]); the default [truncating] of [pad_sequences] is
    ['pre']. *)
Definition pad_x_and_y (X y : ndarray) (lookahead : Z)
  : result (ndarray * ndarray) :=
  let new_length := len X + 1 - lookahead in
  if lookahead =? 1 then Ok (X, y)
  else if lookahead >=? 0 then
    let X_dtype := dtype_of X in
    if lookahead =? 0 then
      X' ← pad_sequences X new_length X_dtype post pre;
      y' ← pad_sequences y new_length X_dtype pre pre;
      Ok (X', y')
    else if lookahead >? 1 then
      X' ← pad_sequences X new_length X_dtype post post;
      y' ← pad_sequences y new_length X_dtype pre pre;
      Ok (X', y')
    else Ok (X, y)
  else Raise (ValueError (NegativeLookahead lookahead)).

(** [len(t)] *)
Definition Table_len (t : Table) : Z :=
  match t with
  | DataFrame df => len df
  | NdArray a => len a
  end.

(** [t.values if isinstance(t, pd.DataFrame) else t] *)
Definition Table_values (t : Table) : ndarray :=
  match t with
  | DataFrame df => values df
  | NdArray a => a
  end.

(** ** The registry of generator types *)

(** The values of a configuration and of keyword arguments. *)
Inductive pyvalue :=
| PyNone
| PyBool (b : bool)
| PyInt (z : Z)
| PyStr (s : string)
| PyTimedelta (d : Timedelta)
| PyTable (t : Table).

(** [dict.update]: the entries of [other] replace those of [d]. *)
Definition dict_update {V} (d other : gmap string V) : gmap string V :=
  other ∪ d.

(** [dict.pop(key)] on a dictionary that has the key. *)
Definition dict_pop {V} (key : string) (d : gmap string V) : gmap string V :=
  delete key d.

(** [TimeseriesGeneratorTypes]: [default_type] and the dictionary [_types];
    a class is the function that builds its instance from keyword arguments. *)
Record TimeseriesGeneratorTypes (T : Type) := mkTypes {
  default_type : gmap string pyvalue -> result T;
  _types : gmap string (gmap string pyvalue -> result T)
}.
Arguments mkTypes {T} _ _.
Arguments default_type {T} _ _.
Arguments _types {T} _.

(** [TimeseriesGeneratorTypes.__init__] *)
Definition TimeseriesGeneratorTypes_init {T}
    (default_type : gmap string pyvalue -> result T)
  : TimeseriesGeneratorTypes T :=
  mkTypes default_type ∅.

(** [type_name not in self._types] and [self._types[type_name]]: the names
    registered are strings, so that no other hashable value is found; a
    table is not hashable. *)
Definition lookup_type {T} (self : TimeseriesGeneratorTypes T)
    (type_name : pyvalue) : result (option (gmap string pyvalue -> result T)) :=
  match type_name with
  | PyStr s => Ok (_types self !! s)
  | PyTable _ => Raise (TypeError (BadArgument "type"))
  | _ => Ok None
  end.

(** [TimeseriesGeneratorTypes.create_from_config(config, **kwargs)]. *)
Definition create_from_config {T} (self : TimeseriesGeneratorTypes T)
    (config : option (gmap string pyvalue)) (kwargs : gmap string pyvalue)
  : result T :=
  match config with
  | None => default_type self kwargs
  | Some config =>
      match config !! "type" with
      | None => Raise (ValueError UnspecifiedType)
      | Some type_name =>
          cls ← lookup_type self type_name;
          match cls with
          | None => Raise (ValueError UnknownType)
          | Some cls =>
              let all_kwargs := config in
              let all_kwargs := dict_pop "type" all_kwargs in
              let all_kwargs := dict_update all_kwargs kwargs in
              cls all_kwargs
          end
      end
  end.

(** [TimeseriesGeneratorTypes.__call__(type_name)(cls)] *)
Definition register {T} (self : TimeseriesGeneratorTypes T) (type_name : string)
    (cls : gmap string pyvalue -> result T)
  : result (TimeseriesGeneratorTypes T) :=
  match _types self !! type_name with
  | Some _ => Raise (ValueError (TypeAlreadyExists type_name))
  | None => Ok (mkTypes (default_type self) (<[type_name := cls]> (_types self)))
  end.

(** ** The registered constructors

    A call of a class with keyword arguments binds the keywords to the parameters of
    [cls.__init__]: a keyword that names no parameter and a parameter without
    default that gets no keyword are [TypeError]s. Python checks no type at
    the call; here an argument of another type than the annotation of its
    parameter is a [TypeError] at the binding (in Python: where the value is
    first used). *)

(** A parameter without default. *)
Definition required (kwargs : gmap string pyvalue) (name : string)
  : result pyvalue :=
  match kwargs !! name with
  | Some v => Ok v
  | None => Raise (TypeError (BadArgument name))
  end.

(** A parameter with a default. *)
Definition optional (kwargs : gmap string pyvalue) (name : string)
    (default : pyvalue) : pyvalue :=
  match kwargs !! name with
  | Some v => v
  | None => default
  end.

(** No keyword but the names of the parameters. *)
Definition only_keywords (names : list string) (kwargs : gmap string pyvalue)
  : result unit :=
  match filter (fun k => k ∉ names) (elements (dom kwargs)) with
  | [] => Ok ()
  | k :: _ => Raise (TypeError (BadArgument k))
  end.

Definition as_int (name : string) (v : pyvalue) : result Z :=
  match v with
  | PyInt z => Ok z
  | PyBool b => Ok (if b then 1 else 0)
  | _ => Raise (TypeError (BadArgument name))
  end.

Definition as_bool (name : string) (v : pyvalue) : result bool :=
  match v with
  | PyBool b => Ok b
  | PyInt z => Ok (negb (z =? 0))
  | PyNone => Ok false
  | _ => Raise (TypeError (BadArgument name))
  end.

Definition as_array (name : string) (v : pyvalue) : result ndarray :=
  match v with
  | PyTable t => Ok (Table_values t)
  | _ => Raise (TypeError (BadArgument name))
  end.

(** A value that is no table fails [isinstance(_, pd.DataFrame)] as an array
    does. *)
Definition as_table (v : pyvalue) : Table :=
  match v with
  | PyTable t => t
  | _ => NdArray []
  end.

Definition as_timedelta (name : string) (v : pyvalue) : result Timedelta :=
  match v with
  | PyTimedelta d => Ok d
  | PyStr s => to_timedelta s
  | _ => Raise (TypeError (BadArgument name))
  end.

(** [TimeseriesGenerator(data=data, targets=targets, **kwargs)]. The options
    that models.py never passes are not modelled. *)
Definition TimeseriesGenerator_new (data targets : ndarray)
    (kwargs : gmap string pyvalue) : result TimeseriesGenerator :=
  match filter (fun k => k ∈ dom kwargs)
          ["sampling_rate"; "stride"; "start_index"; "end_index"; "reverse"]
  with
  | k :: _ => Raise (TypeError (NotModelled k))
  | [] =>
      _ ← only_keywords ["length"; "batch_size"; "shuffle"] kwargs;
      length ← required kwargs "length" ≫= as_int "length";
      batch_size ← as_int "batch_size" (optional kwargs "batch_size" (PyInt 128));
      shuffle ← as_bool "shuffle" (optional kwargs "shuffle" (PyBool false));
      TimeseriesGenerator_init data targets length batch_size shuffle
  end.

(** [DefaultTimeseriesGenertor.__init__(data, targets, lookahead=1, **kwargs)] *)
Definition DefaultTimeseriesGenertor_init (kwargs : gmap string pyvalue)
  : result TimeseriesGenerator :=
  data ← required kwargs "data";
  targets ← required kwargs "targets";
  lookahead ← as_int "lookahead" (optional kwargs "lookahead" (PyInt 1));
  let kwargs := delete "lookahead" (delete "targets" (delete "data" kwargs)) in
  data ← as_array "data" data;
  targets ← as_array "targets" targets;
  '(data, targets) ← pad_x_and_y data targets lookahead;
  TimeseriesGenerator_new data targets kwargs.

(** [GordoTimeseriesGenerator] called with keyword arguments. *)
Definition GordoTimeseriesGenerator_new (kwargs : gmap string pyvalue)
  : result GordoTimeseriesGenerator :=
  _ ← only_keywords ["data"; "targets"; "length"; "batch_size"; "shuffle";
                     "step"; "lookahead"] kwargs;
  data ← required kwargs "data";
  targets ← required kwargs "targets";
  length ← required kwargs "length" ≫= as_int "length";
  batch_size ← as_int "batch_size" (optional kwargs "batch_size" (PyInt 128));
  shuffle ← as_bool "shuffle" (optional kwargs "shuffle" (PyBool false));
  step ← as_timedelta "step" (optional kwargs "step" (PyStr "10min"));
  lookahead ← as_int "lookahead" (optional kwargs "lookahead" (PyInt 1));
  GordoTimeseriesGenerator_init (as_table data) (as_table targets) length
    batch_size shuffle step lookahead.

(** The generators that [create_from_config] can return. *)
Inductive Sequence :=
| Default (g : TimeseriesGenerator)
| Gordo (g : GordoTimeseriesGenerator).

(** [tsg[index]] *)
Definition Sequence_getitem (tsg : Sequence) (index : Z) : result batch :=
  match tsg with
  | Default g => TimeseriesGenerator_getitem g index
  | Gordo g => GordoTimeseriesGenerator_getitem g index
  end.

(** [len(tsg)] *)
Definition Sequence_len (tsg : Sequence) : result Z :=
  match tsg with
  | Default g => py_len g
  | Gordo g => Ok (GordoTimeseriesGenerator_len g)
  end.

(** The module-level registry:
    [timeseries_generators = TimeseriesGeneratorTypes(default_type=DefaultTimeseriesGenertor)],
    then [@timeseries_generators("GordoTimeseriesGenerator")] on the class. *)
Definition timeseries_generators : TimeseriesGeneratorTypes Sequence :=
  mkTypes (fun kwargs => Default <$> DefaultTimeseriesGenertor_init kwargs)
    {[ "GordoTimeseriesGenerator" :=
         fun kwargs => Gordo <$> GordoTimeseriesGenerator_new kwargs ]}.

(** [create_keras_timeseriesgenerator] *)
Definition create_keras_timeseriesgenerator (X y : Table)
    (batch_size lookback_window lookahead : Z)
    (config : option (gmap string pyvalue)) : result Sequence :=
  create_from_config timeseries_generators config
    (<["data" := PyTable X]>
       (<["targets" := PyTable y]>
          (<["length" := PyInt lookback_window]>
             (<["batch_size" := PyInt batch_size]>
                (<["lookahead" := PyInt lookahead]> ∅))))).

(** ** [KerasLSTMBaseEstimator] *)

(** The two concrete classes, which differ by the [lookahead] property. *)
Inductive estimator_class := KerasLSTMForecast | KerasLSTMAutoEncoder.

(** What [fit] reads of the estimator. *)
Record KerasLSTMBaseEstimator := mkEstimator {
  class_ : estimator_class;
  lookback_window : Z;
  batch_size : Z;
  timeseries_generator : option (gmap string pyvalue)
}.

(** The property [lookahead] of the two classes. *)
Definition KerasLSTMBaseEstimator_lookahead (self : KerasLSTMBaseEstimator) : Z :=
  match class_ self with
  | KerasLSTMForecast => 1
  | KerasLSTMAutoEncoder => 0
  end.

(** A numpy array given as [X]: of one dimension, or of two. *)
Inductive array :=
| Array1 (xs : list F)
| Array2 (rows : ndarray).

(** [len(X)], the number of rows. *)
Definition array_len (a : array) : Z :=
  match a with
  | Array1 xs => len xs
  | Array2 rows => len rows
  end.

(** The [X] of [fit]: [Union[np.ndarray, pd.DataFrame]]. *)
Inductive fit_X :=
| XArray (a : array)
| XFrame (df : list (Timestamp * row)).

(** [KerasLSTMBaseEstimator._validate_and_fix_size_of_X]: an array of one
    dimension becomes a column; [X.shape[0]] is the number of rows. *)
Definition _validate_and_fix_size_of_X (self : KerasLSTMBaseEstimator)
    (X : array) : result ndarray :=
  let X := match X with
           | Array1 xs => (fun x => [x]) <$> xs
           | Array2 rows => rows
           end in
  if lookback_window self >=? len X then
    Raise (ValueError LookbackWindowTooLarge)
  else Ok X.

(** [t[:n]], by position on a table as on an array. *)
Definition Table_slice_to (t : Table) (n : Z) : Table :=
  match t with
  | DataFrame df => DataFrame (py_slice_to df n)
  | NdArray a => NdArray (py_slice_to a n)
  end.

(** What [fit] does that the outside can see, in order: a call of
    [create_keras_timeseriesgenerator] (windowing), the priming
    [super().fit] on one batch, by which the Keras wrapper builds the model
    and allocates its parameters, and [self.model.fit_generator]. What the
    network does with the batches is outside the model: the priming fit is
    recorded, and returns. *)
Inductive event :=
| Windowing (X y : Table) (batch_size lookback_window lookahead : Z)
| PrimerFit (primer : batch)
| FitGenerator (tsg : Sequence).

(** [self.model.fit_generator(tsg, shuffle=False, ...)], as far as the
    generator goes: Keras takes [len(tsg)] for the steps of an epoch and
    reads the batches [tsg[0]], ..., [tsg[len(tsg) - 1]] in order; an
    exception of either ends the call. *)
Definition fit_generator (tsg : Sequence) : result unit :=
  steps ← Sequence_len tsg;
  batches ← map_result (fun i => Sequence_getitem tsg i) (arange 0 steps);
  Ok ().

(** [KerasLSTMBaseEstimator.fit]: the events, and how the call ends. *)
Definition fit (self : KerasLSTMBaseEstimator) (X : fit_X) (y : Table)
  : list event * result unit :=
  let validated := match X with
                   | XArray a => NdArray <$> _validate_and_fix_size_of_X self a
                   | XFrame df => Ok (DataFrame df)
                   end in
  match validated with
  | Raise e => ([], Raise e)
  | Ok X =>
      let lookahead := KerasLSTMBaseEstimator_lookahead self in
      let n := lookahead + lookback_window self in
      let ev1 := Windowing (Table_slice_to X n) (Table_slice_to y n) 1
                   (lookback_window self) lookahead in
      match create_keras_timeseriesgenerator (Table_slice_to X n)
              (Table_slice_to y n) 1 (lookback_window self) lookahead
              (timeseries_generator self) with
      | Raise e => ([ev1], Raise e)
      | Ok tsg =>
          match Sequence_getitem tsg 0 with
          | Raise e => ([ev1], Raise e)
          | Ok primer =>
              let ev2 := PrimerFit primer in
              let ev3 := Windowing X y (batch_size self) (lookback_window self)
                           lookahead in
              match create_keras_timeseriesgenerator X y (batch_size self)
                      (lookback_window self) lookahead
                      (timeseries_generator self) with
              | Raise e => ([ev1; ev2; ev3], Raise e)
              | Ok tsg => ([ev1; ev2; ev3; FitGenerator tsg], fit_generator tsg)
              end
          end
      end
  end.

(** ** The rest of [GordoTimeseriesGenerator] and of the estimator *)

(** [GordoTimeseriesGenerator.filter_chunks(indexes)]: the containers at the
    given positions, by list indexing. *)
Definition filter_chunks (g : GordoTimeseriesGenerator)
    (indexes : option (list Z)) : result GordoTimeseriesGenerator :=
  match indexes with
  | None => Ok g
  | Some indexes =>
      containers ← map_result (fun i => py_index (generators_containers g) i)
                     indexes;
      Ok (mkGordo (step g) (consecutive_chunks g) (failed_chunks g) containers
            (lookahead g))
  end.

(** The trained Keras model, on one window: a batch of windows gives one
    output row for each. *)
Variable network : ndarray -> row.

(** [self.model.predict_generator(tsg)]: the batches [tsg[0]], ...,
    [tsg[len(tsg) - 1]] in order, the model on each, and the outputs
    concatenated. *)
Definition predict_generator (tsg : Sequence) : result ndarray :=
  steps ← Sequence_len tsg;
  batches ← map_result (fun i => Sequence_getitem tsg i) (arange 0 steps);
  Ok (concat ((fun b : batch => network <$> b.1) <$> batches)).

(** [KerasLSTMBaseEstimator.predict] *)
Definition predict (self : KerasLSTMBaseEstimator) (X : fit_X)
  : result ndarray :=
  X ← match X with
      | XArray a => NdArray <$> _validate_and_fix_size_of_X self a
      | XFrame df => Ok (DataFrame df)
      end;
  tsg ← create_keras_timeseriesgenerator X X 10000 (lookback_window self)
          (KerasLSTMBaseEstimator_lookahead self) (timeseries_generator self);
  predict_generator tsg.

(** [t[-n:]], by position on a table as on an array. *)
Definition Table_slice_from (t : Table) (start : Z) : Table :=
  match t with
  | DataFrame df => DataFrame (py_slice_from df start)
  | NdArray a => NdArray (py_slice_from a start)
  end.

(** How [score] ends: [NotFittedError] when the estimator has no model, or
    what the rest of the method does. *)
Inductive fitted (T : Type) :=
| NotFittedError
| Fitted (r : result T).
Arguments NotFittedError {T}.
Arguments Fitted {T} r.

(** [KerasLSTMBaseEstimator.score]; [has_model] is [hasattr(self, "model")],
    and the result the two arguments of [explained_variance_score]. *)
Definition score (self : KerasLSTMBaseEstimator) (has_model : bool)
    (X : fit_X) (y : Table) : fitted (Table * ndarray) :=
  if negb has_model then NotFittedError
  else Fitted (out ← predict self X;
               Ok (Table_slice_from y (- len out), out)).

(** ** utils.py *)

(** [metric_wrapper(metric, scaler)(y_true, y_pred, *args, **kwargs)];
    [scaler] is the [transform] of the scaler, when one is given. *)
Definition metric_wrapper {M Args} (metric : ndarray -> ndarray -> Args -> M)
    (scaler : option (ndarray -> ndarray)) (y_true y_pred : ndarray)
    (args : Args) : M :=
  let '(y_true, y_pred) :=
    match scaler with
    | Some transform => (transform y_true, transform y_pred)
    | None => (y_true, y_pred)
    end in
  metric (py_slice_from y_true (- len y_pred)) y_pred args.

(** The rows of an array: those of the column, for an array of one
    dimension. *)
Definition array_rows (a : array) : ndarray :=
  match a with
  | Array1 xs => (fun x => [x]) <$> xs
  | Array2 rows => rows
  end.

(** [len(X)] *)
Definition fit_X_len (X : fit_X) : Z :=
  match X with
  | XArray a => array_len a
  | XFrame df => len df
  end.

(** [determine_offset(model, X)]; the model is given by its [predict], when
    it has one, and its [transform]. *)
Definition determine_offset (model_predict : option (fit_X -> result ndarray))
    (model_transform : fit_X -> result ndarray) (X : fit_X) : result Z :=
  out ← match model_predict with
        | Some predict => predict X
        | None => model_transform X
        end;
  Ok (fit_X_len X - len out).

(** A model as [extract_metadata_from_model] sees it: a [Pipeline] with its
    steps, or another estimator with the metadata of its [get_metadata()]
    when it is a [GordoBase], and those values of its [__dict__] that are
    pipelines or estimators, in order (the loop skips the others). *)
#[warnings="-register-all"]
Inductive estimator (V : Type) :=
| Pipeline (steps : list (string * estimator V))
| Estimator (get_metadata : option (gmap string V))
    (dict_values : list (estimator V)).
Arguments Pipeline {V} steps.
Arguments Estimator {V} get_metadata dict_values.

(** [extract_metadata_from_model(model, metadata)]. The recursive calls are
    made on every step and value, and the one that Python makes is selected
    afterwards: [steps[-2][1]] for a pipeline. *)
Fixpoint extract_metadata_from_model {V} (model : estimator V)
    (metadata : gmap string V) : result (gmap string V) :=
  match model with
  | Pipeline steps =>
      final_step ← py_index
        ((fun step : string * estimator V =>
            extract_metadata_from_model step.2 ∅) <$> steps) (-2);
      found ← final_step;
      Ok (dict_update metadata found)
  | Estimator get_metadata dict_values =>
      let metadata :=
        match get_metadata with
        | Some own => dict_update metadata own
        | None => metadata
        end in
      for_each
        (fun metadata (found : result (gmap string V)) =>
           found ← found; Ok (dict_update metadata found))
        ((fun val : estimator V =>
            match val with
            | Pipeline steps =>
                final_step ← py_index
                  ((fun step : string * estimator V =>
                      extract_metadata_from_model step.2 ∅) <$> steps) (-2);
                final_step
            | Estimator _ _ => extract_metadata_from_model val ∅
            end) <$> dict_values)
        metadata
  end.

(** ** Invariants of the generators *)

(** What [TimeseriesGenerator.__init__] establishes. *)
Definition wf_generator (g : TimeseriesGenerator) : Prop :=
  tg_start_index g = tg_length g /\
  tg_start_index g <= tg_end_index g /\
  tg_end_index g = len (tg_data g) - 1 /\
  len (tg_data g) = len (tg_targets g).

(** The rows [np.random.randint(low, high, size)] can return. *)
Definition randint_in_range : Prop :=
  forall low high size,
    low < high -> Forall (fun r => low <= r < high) (randint low high size).

(** The windows before the container at position [k]. *)
Definition windows_before (containers : list TimeseriesGeneratorContainer)
    (k : nat) : Z :=
  py_sum (length_ <$> take k containers).

(** What the constructor establishes on a container. *)
Definition wf_container (batch_size : Z) (shuffle : bool)
    (c : TimeseriesGeneratorContainer) : Prop :=
  wf_generator (generator c) /\
  0 <= tg_length (generator c) /\
  tg_batch_size (generator c) = batch_size /\
  tg_shuffle (generator c) = shuffle /\
  py_len (generator c) = Ok (length_ c).

(** The variables of the loop of [find_consecutive_chunks] after the rows
    of timestamps [ts]. *)
Definition chunk_scan_of (step : Timedelta) (ts : list Timestamp) : chunk_scan :=
  fold_left (chunk_scan_step step) (enumerate ts) (mkScan [] None 0).

(** The first chunk holds the rows it counts; a later chunk counts the row
    after the gap besides the rows between its bounds. *)
Definition counted_outside (first : bool) : Z := if first then 1 else 2.

Definition spaced (step : Timedelta) (first : bool) (c : TimeseriesChunk)
  : Prop :=
  end_ts c = start_ts c + step * (size c - counted_outside first).

Definition chunks_spaced (step : Timedelta) (cs : list TimeseriesChunk)
  : Prop :=
  match cs with
  | [] => True
  | c :: rest => spaced step true c /\ Forall (spaced step false) rest
  end.

(** What the loop of [find_consecutive_chunks] keeps, after [k] rows. *)
Definition chunk_scan_inv (step : Timedelta) (k : Z) (st : chunk_scan) : Prop :=
  py_sum (size <$> chunks st) = start_i st /\
  Forall (fun c => 1 <= size c) (chunks st) /\
  chunks_spaced step (chunks st) /\
  match prev_start st with
  | None =>
      (k = 0 /\ chunks st = [] /\ start_i st = 0) \/
      (0 < k /\ start_i st = k - 1 /\ chunks st <> [])
  | Some (prev_ts, start_ts) =>
      start_i st < k /\
      (chunks st = [] -> start_i st = 0) /\
      (chunks st <> [] -> start_i st + 2 <= k) /\
      prev_ts = start_ts
                + step * (k - start_i st
                          - counted_outside (bool_decide (chunks st = [])))
  end.

(** The timestamps of [n] rows without gap, from [t0]. *)
Definition regular_index (t0 : Timestamp) (step : Timedelta) (n : nat)
  : list Timestamp :=
  (fun k => t0 + step * Z.of_nat k) <$> seq 0 n.

(** ** Concrete tables

    For the properties stated on concrete tables: scalars are integers,
    timestamps and time deltas count minutes, and the frame [frame ts] has
    the one-column row [[t]] at each timestamp [t]. *)

Definition frame (ts : list Timestamp) : list (Timestamp * list Z) :=
  (fun t => (t, [t])) <$> ts.

(** A draw that [np.random.randint] can make: the lowest row, each time. *)
Definition lowest_row (low high size : Z) : list Z :=
  replicate (Z.to_nat size) low.

(** [pd.to_timedelta] on the strings of the examples, in minutes. *)
Definition minutes (s : string) : result Timedelta :=
  if String.eqb s "10min" then Ok 10
  else if String.eqb s "1min" then Ok 1
  else Raise (ValueError (BadArgument s)).

(** A network for the examples: it answers the last row of the window. *)
Definition last_row (w : list (list Z)) : list Z := default [] (last w).

(** The dtypes of the examples. An array of integers is taken to be of
    dtype [uint8] when each of its scalars fits in a byte, and of dtype
    [int64] otherwise; the conversion to [uint8] wraps around, as numpy's
    does. *)
Inductive np_dtype := int64 | uint8.

#[global] Instance np_dtype_eq_dec : EqDecision np_dtype.
Proof. solve_decision. Defined.

Definition dtype_of_ints (a : list (list Z)) : np_dtype :=
  if forallb (forallb (fun x => (0 <=? x) && (x <? 256))) a then uint8
  else int64.

Definition astype_ints (d : np_dtype) (x : Z) : Z :=
  match d with
  | int64 => x
  | uint8 => x mod 256
  end.

(** * Properties *)

(** ** Python sequences *)

Lemma len_nonneg {A} (l : list A) : 0 <= len l.
Proof. unfold len. lia. Qed.

Lemma py_index_in_range {A} (l : list A) (i : Z) :
  0 <= i < len l ->
  exists x, py_index l i = Ok x /\ l !! Z.to_nat i = Some x.
Proof.
  intros Hi. unfold py_index, len in *.
  destruct (i <? 0) eqn:E0; [lia|].
  destruct (l !! Z.to_nat i) as [x|] eqn:El.
  - exists x. destruct (i <? - Z.of_nat (length l)) eqn:E1; [lia|]. done.
  - apply lookup_ge_None in El. lia.
Qed.

Lemma elem_of_arange (a b r : Z) : r ∈ arange a b <-> a <= r < b.
Proof.
  unfold arange. rewrite list_elem_of_fmap. split.
  - intros (k & -> & Hk). apply elem_of_seq in Hk. lia.
  - intros Hr. exists (Z.to_nat (r - a)). split; [lia|].
    apply elem_of_seq. lia.
Qed.

Lemma length_arange (a b : Z) : length (arange a b) = Z.to_nat (b - a).
Proof. unfold arange. by rewrite length_fmap, length_seq. Qed.

Lemma lookup_arange (a b : Z) (j : nat) :
  (j < Z.to_nat (b - a))%nat -> arange a b !! j = Some (a + Z.of_nat j).
Proof.
  intros Hj. unfold arange. rewrite list_lookup_fmap, lookup_seq_lt by done.
  done.
Qed.

Lemma map_result_Ok {A B} (f : A -> result B) (l : list A) :
  Forall (fun x => is_Ok (f x)) l ->
  exists ys, map_result f l = Ok ys /\ length ys = length l /\
    forall j x, l !! j = Some x -> exists y, f x = Ok y /\ ys !! j = Some y.
Proof.
  induction 1 as [|x l Hx _ IH]; simpl.
  - exists []. split_and!; [done..|]. intros j x Hj. by rewrite lookup_nil in Hj.
  - destruct (f x) as [y|] eqn:Ey; [|done].
    destruct IH as (ys & -> & Hlen & Hys). exists (y :: ys). simpl.
    split_and!; [done|by f_equal|].
    intros [|j] x' Hj; simpl in *.
    + injection Hj as <-. by exists y.
    + by apply Hys.
Qed.

(** ** The Keras generator on its own range *)

Lemma TimeseriesGenerator_init_Ok data targets length batch_size shuffle g :
  TimeseriesGenerator_init data targets length batch_size shuffle = Ok g ->
  wf_generator g /\ tg_length g = length /\ tg_batch_size g = batch_size /\
  tg_shuffle g = shuffle /\ tg_data g = data /\ tg_targets g = targets.
Proof.
  unfold TimeseriesGenerator_init, wf_generator.
  destruct (len data =? len targets) eqn:El; simpl; [|done].
  destruct (0 + length >? len data - 1) eqn:Es; [done|].
  intros [= <-]. simpl. split_and!; try done; lia.
Qed.

Lemma py_len_Ok g n :
  py_len g = Ok n ->
  tg_batch_size g <> 0 /\ 0 <= n /\
  n = (tg_end_index g - tg_start_index g + tg_batch_size g) / tg_batch_size g.
Proof.
  unfold py_len, TimeseriesGenerator_len__.
  destruct (tg_batch_size g =? 0) eqn:E0; simpl; [done|].
  destruct (_ <? 0) eqn:En; [done|]. intros [= <-]. lia.
Qed.

(** A local index below the number of batches reads rows of the generator's
    own range only, and so returns a batch. *)
Lemma TimeseriesGenerator_getitem_Ok g n index :
  wf_generator g -> 0 <= tg_length g -> 0 < tg_batch_size g ->
  randint_in_range ->
  py_len g = Ok n -> 0 <= index < n ->
  is_Ok (TimeseriesGenerator_getitem g index).
Proof.
  intros (Hs & Hse & He & Hl) HL Hbs Hrand Hn Hi.
  apply py_len_Ok in Hn as (_ & _ & Hn).
  assert (Hb : tg_start_index g + tg_batch_size g * index <= tg_end_index g).
  { assert (tg_batch_size g * n <=
            tg_end_index g - tg_start_index g + tg_batch_size g)
      by (subst n; apply Z.mul_div_le; lia).
    nia. }
  unfold TimeseriesGenerator_getitem.
  assert (Hrows : exists rows,
    (if tg_shuffle g then
       np_random_randint (tg_start_index g) (tg_end_index g + 1) (tg_batch_size g)
     else Ok (arange (tg_start_index g + tg_batch_size g * index)
                (Z.min (tg_start_index g + tg_batch_size g * index
                        + tg_batch_size g) (tg_end_index g + 1)))) = Ok rows /\
    Forall (fun r => tg_start_index g <= r <= tg_end_index g) rows).
  { destruct (tg_shuffle g).
    - unfold np_random_randint.
      destruct (_ <=? _) eqn:E1; [lia|]. destruct (_ <? 0) eqn:E2; [lia|].
      eexists. split; [done|].
      eapply Forall_impl; [apply Hrand; lia|]. simpl. lia.
    - eexists. split; [done|]. apply Forall_forall. intros r Hr.
      apply elem_of_arange in Hr. lia. }
  destruct Hrows as (rows & -> & Hrows). simpl.
  destruct (map_result_Ok (fun row => py_index (tg_targets g) row) rows)
    as (ys & -> & _).
  { eapply Forall_impl; [apply Hrows|]. simpl. intros r Hr.
    destruct (py_index_in_range (tg_targets g) r) as (x & -> & _); [lia|done]. }
  done.
Qed.

(** ** The global index *)

Lemma py_sum_app (l1 l2 : list Z) : py_sum (l1 ++ l2) = py_sum l1 + py_sum l2.
Proof. induction l1 as [|x l1 IH]; simpl; lia. Qed.

Lemma py_sum_nonneg (l : list Z) : Forall (fun x => 0 <= x) l -> 0 <= py_sum l.
Proof. induction 1; simpl; lia. Qed.

Lemma windows_before_S containers k c :
  containers !! k = Some c ->
  windows_before containers (S k) = windows_before containers k + length_ c.
Proof.
  intros Hk. unfold windows_before.
  rewrite (take_S_r _ _ _ Hk), fmap_app, py_sum_app. simpl. lia.
Qed.

Lemma windows_before_mono containers k k' :
  Forall (fun c => 0 <= length_ c) containers ->
  (k <= k')%nat ->
  windows_before containers k <= windows_before containers k'.
Proof.
  intros Hnn Hk. induction Hk as [|k' Hk IH]; [lia|].
  destruct (containers !! k') as [c|] eqn:Ek.
  - rewrite (windows_before_S _ _ _ Ek).
    pose proof (proj1 (Forall_lookup _ _) Hnn _ _ Ek). simpl in *. lia.
  - unfold windows_before in *. apply lookup_ge_None in Ek.
    rewrite (take_ge _ k') in IH by lia. rewrite (take_ge _ (S k')) by lia.
    done.
Qed.

Lemma py_sum_cons (x : Z) (l : list Z) : py_sum (x :: l) = x + py_sum l.
Proof. done. Qed.

Lemma windows_before_0 containers : windows_before containers 0 = 0.
Proof. done. Qed.

Lemma windows_before_cons c containers k :
  windows_before (c :: containers) (S k)
  = length_ c + windows_before containers k.
Proof. done. Qed.

(** The loop of [__getitem__], started at [i] with [i < index]. *)
Lemma locate_found containers : forall i index,
  Forall (fun c => 0 <= length_ c) containers ->
  i < index -> index <= i + py_sum (length_ <$> containers) ->
  exists k c,
    containers !! k = Some c /\
    locate containers i index
      = Ok (c, index - (i + 1 + windows_before containers k)) /\
    0 <= index - (i + 1 + windows_before containers k) < length_ c.
Proof.
  induction containers as [|c containers IH]; intros i index Hnn Hlt Hle.
  - unfold py_sum in Hle. simpl in Hle. lia.
  - rewrite fmap_cons, py_sum_cons in Hle.
    apply Forall_cons in Hnn as [Hc Hnn]. simpl.
    destruct (index <=? i + length_ c) eqn:E.
    + exists 0%nat, c. rewrite windows_before_0.
      split_and!; [done|f_equal; f_equal; lia|lia|lia].
    + destruct (IH (i + length_ c) index Hnn) as (k & c' & Hk & -> & Hr);
        [lia..|].
      exists (S k), c'. rewrite windows_before_cons.
      split_and!; [done|f_equal; f_equal; lia|lia|lia].
Qed.

Lemma locate_past_end containers : forall i index,
  i + py_sum (length_ <$> containers) < index ->
  Forall (fun c => 0 <= length_ c) containers ->
  locate containers i index = Raise (IndexError (GlobalIndex index)).
Proof.
  induction containers as [|c containers IH]; intros i index Hlt Hnn; [done|].
  rewrite fmap_cons, py_sum_cons in Hlt. apply Forall_cons in Hnn as [Hc Hnn].
  assert (0 <= py_sum (length_ <$> containers))
    by (apply py_sum_nonneg; by apply Forall_fmap).
  simpl. destruct (index <=? i + length_ c) eqn:E; [lia|].
  apply IH; [lia|done].
Qed.

(** ** What the constructor establishes on the containers *)

Lemma create_generator_containers_step_wf data targets batch_size shuffle st
    chunk st' :
  0 <= cs_length st ->
  Forall (wf_container batch_size shuffle) (cs_generator_containers st) ->
  create_generator_containers_step data targets batch_size shuffle st chunk
    = Ok st' ->
  0 <= cs_length st' /\
  Forall (wf_container batch_size shuffle) (cs_generator_containers st').
Proof.
  intros HL Hwf. unfold create_generator_containers_step.
  destruct (TimeseriesGenerator_init _ _ _ _ _) as [g|e] eqn:Eg.
  - destruct (py_len g) as [n|] eqn:En; simpl; [|done].
    intros [= <-]. simpl.
    apply TimeseriesGenerator_init_Ok in Eg as (Hg & HgL & Hgb & Hgs & _).
    pose proof (py_len_Ok _ _ En) as (_ & Hn & _).
    split; [done|]. apply Forall_app. split; [done|].
    apply Forall_singleton. unfold wf_container. simpl.
    split_and!; [done|lia|done..].
  - destruct (is_ValueError e); [|done]. intros [= <-]. done.
Qed.

Lemma for_each_invariant {S A} (f : S -> A -> result S) (P : S -> Prop) :
  (forall st x st', P st -> f st x = Ok st' -> P st') ->
  forall l st st', P st -> for_each f l st = Ok st' -> P st'.
Proof.
  intros Hf. induction l as [|x l IH]; intros st st' HP; simpl.
  - by intros [= <-].
  - destruct (f st x) as [st1|] eqn:E1; simpl; [|done].
    apply IH. by eapply Hf.
Qed.

Lemma GordoTimeseriesGenerator_init_wf data targets length batch_size shuffle
    step lookahead g :
  0 <= length ->
  GordoTimeseriesGenerator_init data targets length batch_size shuffle step
    lookahead = Ok g ->
  generators_containers g <> [] /\
  Forall (wf_container batch_size shuffle) (generators_containers g).
Proof.
  intros HL. unfold GordoTimeseriesGenerator_init.
  destruct data as [data|]; [|done]. destruct targets as [targets|]; [|done].
  destruct (negb _); [done|].
  destruct (create_generator_containers _ _ _ _ _ _) as [st|] eqn:Est;
    simpl; [|done].
  destruct (cs_generator_containers st) as [|c cs] eqn:Ecs; [done|].
  intros [= <-]. simpl. split; [done|]. rewrite <- Ecs.
  unfold create_generator_containers in Est.
  eapply (for_each_invariant _
    (fun st => 0 <= cs_length st /\
       Forall (wf_container batch_size shuffle) (cs_generator_containers st)))
    in Est.
  - apply Est.
  - intros st0 x st1 [H1 H2]. by apply create_generator_containers_step_wf.
  - simpl. split; [done|constructor].
Qed.

Lemma wf_containers_nonneg batch_size shuffle containers :
  Forall (wf_container batch_size shuffle) containers ->
  Forall (fun c => 0 <= length_ c) containers.
Proof.
  intros Hwf. eapply Forall_impl; [exact Hwf|].
  intros c (_ & _ & _ & _ & Hn). by apply py_len_Ok in Hn as (_ & ? & _).
Qed.

Lemma create_generator_containers_step_len data targets batch_size shuffle st
    chunk st' :
  Forall (fun c => py_len (generator c) = Ok (length_ c))
    (cs_generator_containers st) ->
  create_generator_containers_step data targets batch_size shuffle st chunk
    = Ok st' ->
  Forall (fun c => py_len (generator c) = Ok (length_ c))
    (cs_generator_containers st').
Proof.
  intros Hwf. unfold create_generator_containers_step.
  destruct (TimeseriesGenerator_init _ _ _ _ _) as [g|e] eqn:Eg.
  - destruct (py_len g) as [n|] eqn:En; simpl; [|done].
    intros [= <-]. simpl. apply Forall_app. split; [done|].
    by apply Forall_singleton.
  - destruct (is_ValueError e); [|done]. intros [= <-]. done.
Qed.

Lemma GordoTimeseriesGenerator_init_nonneg data targets length batch_size
    shuffle step lookahead g :
  GordoTimeseriesGenerator_init data targets length batch_size shuffle step
    lookahead = Ok g ->
  generators_containers g <> [] /\
  Forall (fun c => 0 <= length_ c) (generators_containers g).
Proof.
  unfold GordoTimeseriesGenerator_init.
  destruct data as [data|]; [|done]. destruct targets as [targets|]; [|done].
  destruct (negb _); [done|].
  destruct (create_generator_containers _ _ _ _ _ _) as [st|] eqn:Est;
    simpl; [|done].
  destruct (cs_generator_containers st) as [|c cs] eqn:Ecs; [done|].
  intros [= <-]. simpl. split; [done|]. rewrite <- Ecs.
  unfold create_generator_containers in Est.
  eapply (for_each_invariant _
    (fun st => Forall (fun c => py_len (generator c) = Ok (length_ c))
                 (cs_generator_containers st))) in Est.
  - eapply Forall_impl; [exact Est|]. intros c' Hn.
    by apply py_len_Ok in Hn as (_ & ? & _).
  - intros st0 x st1. apply create_generator_containers_step_len.
  - constructor.
Qed.

(** ** Chunks without generator *)

(** In the loop, a chunk with no more rows than the current value of the
    local [length] is recorded as failed and adds no container. *)
Lemma create_generator_containers_step_short data targets batch_size shuffle
    st chunk :
  len (loc_slice data (start_ts chunk) (end_ts chunk)) <= cs_length st ->
  create_generator_containers_step data targets batch_size shuffle st chunk
  = Ok (mkContainersScan (cs_length st) (cs_failed_chunks st ++ [chunk])
          (cs_generator_containers st)).
Proof.
  intros Hshort. unfold create_generator_containers_step.
  destruct (TimeseriesGenerator_init _ _ _ _ _) as [g|e] eqn:Eg.
  - apply TimeseriesGenerator_init_Ok in Eg
      as ((Hs & Hse & He & _) & HL & _ & _ & Hd & _).
    rewrite Hd in He. unfold len, values in *. rewrite length_fmap in He. lia.
  - unfold TimeseriesGenerator_init in Eg.
    destruct (negb _); [by injection Eg as <-|].
    destruct (_ >? _); [by injection Eg as <-|done].
Qed.

Lemma create_generator_containers_none data targets batch_size shuffle chunks :
  forall st st',
    for_each (create_generator_containers_step data targets batch_size shuffle)
      chunks st = Ok st' ->
    cs_generator_containers st' = [] ->
    cs_failed_chunks st' = cs_failed_chunks st ++ chunks.
Proof.
  induction chunks as [|chunk chunks IH]; intros st st'; simpl.
  - intros [= <-] _. by rewrite app_nil_r.
  - destruct (create_generator_containers_step _ _ _ _ st chunk) as [st1|]
      eqn:E1; simpl; [|done].
    intros Hrest Hnone. rewrite (IH _ _ Hrest Hnone).
    unfold create_generator_containers_step in E1.
    destruct (TimeseriesGenerator_init _ _ _ _ _) as [g|e].
    + destruct (py_len g) as [n|]; simpl in E1; [|done].
      injection E1 as <-. exfalso.
      assert (Hne : forall st0,
        for_each (create_generator_containers_step data targets batch_size
                    shuffle) chunks st0 = Ok st' ->
        cs_generator_containers st0 = []).
      { clear -Hnone. induction chunks as [|c chunks IH']; intros st0; simpl.
        - by intros [= ->].
        - destruct (create_generator_containers_step _ _ _ _ st0 c) as [st2|]
            eqn:E2; simpl; [|done].
          intros Hrest. apply IH' in Hrest.
          unfold create_generator_containers_step in E2.
          destruct (TimeseriesGenerator_init _ _ _ _ _) as [g|e].
          + destruct (py_len g); simpl in E2; [|done]. injection E2 as <-.
            simpl in Hrest. by destruct (cs_generator_containers st0).
          + destruct (is_ValueError e); [|done]. by injection E2 as <-. }
      apply Hne in Hrest. simpl in Hrest.
      by destruct (cs_generator_containers st).
    + destruct (is_ValueError e); [|done]. injection E1 as <-. simpl.
      by rewrite <- app_assoc.
Qed.

(** When no chunk yields a generator, the constructor raises the
    [ValueError] that names the chunks, which are then the failed chunks. *)
Lemma GordoTimeseriesGenerator_init_all_failed data targets length batch_size
    shuffle step lookahead st :
  len data = len targets ->
  create_generator_containers (find_consecutive_chunks step data) data targets
    length batch_size shuffle = Ok st ->
  cs_generator_containers st = [] ->
  GordoTimeseriesGenerator_init (DataFrame data) (DataFrame targets) length
    batch_size shuffle step lookahead
  = Raise (ValueError (TooSmallOrRandomOrder (cs_failed_chunks st))) /\
  cs_failed_chunks st = find_consecutive_chunks step data.
Proof.
  intros Hlen Hst Hnone.
  assert (Hfailed : cs_failed_chunks st = find_consecutive_chunks step data).
  { unfold create_generator_containers in Hst.
    by apply create_generator_containers_none in Hst. }
  split; [|done]. unfold GordoTimeseriesGenerator_init.
  destruct (len data =? len targets) eqn:E; [|lia]. simpl.
  rewrite Hst. simpl. rewrite Hnone. by rewrite Hfailed.
Qed.

(** C3, what holds. On every generator that the constructor returns:
    [__len__] is the sum of the containers' window counts; for every [i] with
    [0 <= i < len], [__getitem__(i)] is the call of the generator of exactly
    one container, at the local index [i] minus the window counts of the
    containers before it, and this call returns a batch (for a window length
    that is not negative, a positive batch size, and draws of
    [np.random.randint] within its bounds when the generator shuffles);
    and [__getitem__(len)] raises the [IndexError] of the global index. *)
Theorem getitem_global_index data targets length batch_size shuffle step
    lookahead g :
  GordoTimeseriesGenerator_init data targets length batch_size shuffle step
    lookahead = Ok g ->
  GordoTimeseriesGenerator_len g = py_sum (length_ <$> generators_containers g)
  /\ (forall i, 0 <= i < GordoTimeseriesGenerator_len g ->
      exists k c,
        generators_containers g !! k = Some c /\
        0 <= i - windows_before (generators_containers g) k < length_ c /\
        GordoTimeseriesGenerator_getitem g i
          = TimeseriesGenerator_getitem (generator c)
              (i - windows_before (generators_containers g) k) /\
        (forall k' c',
           generators_containers g !! k' = Some c' ->
           0 <= i - windows_before (generators_containers g) k' < length_ c' ->
           k' = k) /\
        (0 <= length -> 0 < batch_size -> randint_in_range ->
         is_Ok (GordoTimeseriesGenerator_getitem g i)))
  /\ GordoTimeseriesGenerator_getitem g (GordoTimeseriesGenerator_len g)
     = Raise (IndexError (GlobalIndex (GordoTimeseriesGenerator_len g))).
Proof.
  intros Hinit.
  destruct (GordoTimeseriesGenerator_init_nonneg _ _ _ _ _ _ _ _ Hinit)
    as [_ Hnn].
  split; [done|]. split.
  - intros i Hi. unfold GordoTimeseriesGenerator_len in Hi.
    destruct (locate_found (generators_containers g) (-1) i Hnn)
      as (k & c & Hk & Hloc & Hr); [lia..|].
    replace (i - (-1 + 1 + windows_before (generators_containers g) k))
      with (i - windows_before (generators_containers g) k) in * by lia.
    assert (Heq : GordoTimeseriesGenerator_getitem g i
      = TimeseriesGenerator_getitem (generator c)
          (i - windows_before (generators_containers g) k)).
    { unfold GordoTimeseriesGenerator_getitem. by rewrite Hloc. }
    exists k, c. split_and!; [done|lia|lia|done| |].
    + intros k' c' Hk' Hr'.
      destruct (Nat.lt_trichotomy k' k) as [Hlt|[->|Hlt]]; [|done|].
      * pose proof (windows_before_mono _ (S k') k Hnn ltac:(lia)) as Hm.
        rewrite (windows_before_S _ _ _ Hk') in Hm. lia.
      * pose proof (windows_before_mono _ (S k) k' Hnn ltac:(lia)) as Hm.
        rewrite (windows_before_S _ _ _ Hk) in Hm. lia.
    + intros HL Hbs Hrand. rewrite Heq.
      destruct (GordoTimeseriesGenerator_init_wf _ _ _ _ _ _ _ _ HL Hinit)
        as [_ Hwf].
      pose proof (proj1 (Forall_lookup _ _) Hwf _ _ Hk)
        as (Hg & HgL & Hgb & _ & Hlen).
      eapply TimeseriesGenerator_getitem_Ok; [done|done|lia|done|done|lia].
  - unfold GordoTimeseriesGenerator_getitem.
    rewrite locate_past_end; [done| |done].
    unfold GordoTimeseriesGenerator_len. lia.
Qed.

(** C10, what holds. On every generator that the constructor returns and for
    every negative index [n], the loop of [__getitem__] stops at the first
    container with the local index [n], so that the call is the call of that
    container's Keras generator at [n]; the [IndexError] after the loop is not
    reached. *)
Theorem getitem_negative_index data targets length batch_size shuffle step
    lookahead g n :
  n < 0 ->
  GordoTimeseriesGenerator_init data targets length batch_size shuffle step
    lookahead = Ok g ->
  exists c rest,
    generators_containers g = c :: rest /\
    locate (generators_containers g) (-1) n = Ok (c, n) /\
    GordoTimeseriesGenerator_getitem g n
      = TimeseriesGenerator_getitem (generator c) n.
Proof.
  intros Hn Hinit.
  destruct (GordoTimeseriesGenerator_init_nonneg _ _ _ _ _ _ _ _ Hinit)
    as [Hne Hnn].
  unfold GordoTimeseriesGenerator_getitem.
  destruct (generators_containers g) as [|c rest]; [done|].
  apply Forall_cons in Hnn as [Hc _].
  exists c, rest. simpl.
  destruct (n <=? -1 + length_ c) eqn:E; [|lia].
  replace (n - -1 - 1) with n by lia. done.
Qed.

(** C5, what holds. The constructor refuses data and targets of different
    lengths with a [ValueError], whatever the other arguments are; between two
    frames, it is the error of the length test. *)
Theorem init_rejects_different_lengths data targets length batch_size shuffle
    step lookahead :
  Table_len data <> Table_len targets ->
  (exists m,
     GordoTimeseriesGenerator_init data targets length batch_size shuffle step
       lookahead = Raise (ValueError m)) /\
  (forall d t, data = DataFrame d -> targets = DataFrame t ->
     GordoTimeseriesGenerator_init data targets length batch_size shuffle step
       lookahead = Raise (ValueError (DataTargetsLength (len d) (len t)))).
Proof.
  intros Hlen.
  assert (H2 : forall d t, data = DataFrame d -> targets = DataFrame t ->
     GordoTimeseriesGenerator_init data targets length batch_size shuffle step
       lookahead = Raise (ValueError (DataTargetsLength (len d) (len t)))).
  { intros d t -> ->. simpl in *.
    destruct (len d =? len t) eqn:E; [lia|done]. }
  split; [|done].
  destruct data as [d|]; [|by eexists].
  destruct targets as [t|]; [|by eexists].
  eexists. by apply H2.
Qed.

Lemma only_keywords_Ok names (kwargs : gmap string pyvalue) :
  (forall k, is_Some (kwargs !! k) -> k ∈ names) ->
  only_keywords names kwargs = Ok ().
Proof.
  intros Hall. unfold only_keywords.
  destruct (filter (λ k, k ∉ names) (elements (dom kwargs))) as [|k ks] eqn:Ek;
    [done|].
  assert (Hk : k ∈ k :: ks) by left. rewrite <- Ek in Hk.
  apply list_elem_of_filter in Hk as [Hk1 Hk2].
  apply elem_of_elements, elem_of_dom in Hk2. by apply Hall in Hk2.
Qed.

Lemma no_keyword_of names (kwargs : gmap string pyvalue) :
  (forall k, k ∈ names -> kwargs !! k = None) ->
  filter (λ k, k ∈ dom kwargs) names = [].
Proof.
  intros Hall.
  destruct (filter (λ k, k ∈ dom kwargs) names) as [|k ks] eqn:Ek; [done|].
  assert (Hk : k ∈ k :: ks) by left. rewrite <- Ek in Hk.
  apply list_elem_of_filter in Hk as [Hk1 Hk2].
  apply elem_of_dom in Hk1. rewrite (Hall _ Hk2) in Hk1. by destruct Hk1.
Qed.

Lemma TimeseriesGenerator_new_shared data targets lookback_window batch_size :
  TimeseriesGenerator_new data targets
    (<["length" := PyInt lookback_window]>
       (<["batch_size" := PyInt batch_size]> ∅))
  = TimeseriesGenerator_init data targets lookback_window batch_size false.
Proof.
  set (kwargs := <["length" := PyInt lookback_window]>
                   (<["batch_size" := PyInt batch_size]>
                      (∅ : gmap string pyvalue))).
  assert (H1 : kwargs !! "length" = Some (PyInt lookback_window))
    by apply lookup_insert_eq.
  assert (H2 : kwargs !! "batch_size" = Some (PyInt batch_size)).
  { unfold kwargs. rewrite lookup_insert_ne by done. apply lookup_insert_eq. }
  assert (H3 : forall k, k <> "length" -> k <> "batch_size" ->
                 kwargs !! k = None).
  { intros k Hk1 Hk2. unfold kwargs.
    by rewrite !lookup_insert_ne, lookup_empty. }
  clearbody kwargs. unfold TimeseriesGenerator_new.
  rewrite no_keyword_of; last first.
  { intros k Hk.
    repeat (apply elem_of_cons in Hk as [->|Hk]; [by apply H3|]).
    by apply elem_of_nil in Hk. }
  rewrite only_keywords_Ok; last first.
  { intros k [v Hk].
    destruct (decide (k = "length")) as [->|]; [by left|].
    destruct (decide (k = "batch_size")) as [->|]; [by right; left|].
    by rewrite H3 in Hk. }
  unfold required, optional. rewrite H1, H2, H3 by done. done.
Qed.

(** Without configuration, [create_keras_timeseriesgenerator] pads and builds
    the Keras generator with the lookback window as its length. *)
Lemma create_keras_timeseriesgenerator_default X y batch_size lookback_window
    lookahead :
  create_keras_timeseriesgenerator X y batch_size lookback_window lookahead None
  = Default <$>
      ('(data, targets) ← pad_x_and_y (Table_values X) (Table_values y) lookahead;
       TimeseriesGenerator_init data targets lookback_window batch_size false).
Proof.
  unfold create_keras_timeseriesgenerator, create_from_config. simpl.
  unfold DefaultTimeseriesGenertor_init, required, optional.
  simplify_map_eq. simpl.
  destruct (pad_x_and_y _ _ _) as [[data targets]|]; simpl; [|done].
  match goal with
  | |- context [TimeseriesGenerator_new _ _ ?m] =>
      replace m with (<["length" := PyInt lookback_window]>
                        (<["batch_size" := PyInt batch_size]>
                           (∅ : gmap string pyvalue)))
  end.
  - by rewrite TimeseriesGenerator_new_shared.
  - apply map_eq. intros k.
    destruct (decide (k = "data")) as [->|]; [by simplify_map_eq|].
    destruct (decide (k = "targets")) as [->|]; [by simplify_map_eq|].
    destruct (decide (k = "lookahead")) as [->|]; [by simplify_map_eq|].
    destruct (decide (k = "length")) as [->|]; [by simplify_map_eq|].
    destruct (decide (k = "batch_size")) as [->|]; by simplify_map_eq.
Qed.

(** C8, what holds. The default generator refuses every negative lookahead
    with the [ValueError] of [pad_x_and_y], which is raised before the Keras
    generator is built. *)
Theorem default_generator_rejects_negative_lookahead X y batch_size
    lookback_window lookahead :
  lookahead < 0 ->
  create_keras_timeseriesgenerator X y batch_size lookback_window lookahead None
  = Raise (ValueError (NegativeLookahead lookahead)).
Proof.
  intros Hneg. rewrite create_keras_timeseriesgenerator_default.
  unfold pad_x_and_y.
  destruct (lookahead =? 1) eqn:E1; [lia|].
  destruct (lookahead >=? 0) eqn:E0; [lia|]. done.
Qed.

(** C9. [create_from_config]: without configuration, the default type is
    called with the shared keyword arguments as they are; a configuration
    without ["type"], or whose ["type"] is not registered, is an error;
    otherwise the registered constructor is called with the entries of the
    configuration other than ["type"], over which every shared keyword
    argument wins. *)
Theorem create_from_config_spec {T} (self : TimeseriesGeneratorTypes T)
    (kwargs : gmap string pyvalue) :
  create_from_config self None kwargs = default_type self kwargs /\
  (forall config : gmap string pyvalue,
     config !! "type" = None ->
     create_from_config self (Some config) kwargs
     = Raise (ValueError UnspecifiedType)) /\
  (forall (config : gmap string pyvalue) type_name,
     config !! "type" = Some type_name ->
     (forall s, type_name = PyStr s -> _types self !! s = None) ->
     exists e, create_from_config self (Some config) kwargs = Raise e) /\
  (forall (config : gmap string pyvalue) s cls,
     config !! "type" = Some (PyStr s) ->
     _types self !! s = Some cls ->
     exists all_kwargs : gmap string pyvalue,
       create_from_config self (Some config) kwargs = cls all_kwargs /\
       (forall k v, kwargs !! k = Some v -> all_kwargs !! k = Some v) /\
       (forall k, kwargs !! k = None -> k <> "type" ->
          all_kwargs !! k = config !! k) /\
       (kwargs !! "type" = None -> all_kwargs !! "type" = None)).
Proof.
  split_and!.
  - done.
  - intros config Hty. unfold create_from_config. by rewrite Hty.
  - intros config type_name Hty Hun. unfold create_from_config. rewrite Hty.
    destruct type_name as [| | |s| |]; simpl; try by eexists.
    rewrite (Hun s eq_refl). by eexists.
  - intros config s cls Hty Hcls. unfold create_from_config.
    rewrite Hty. simpl. rewrite Hcls.
    eexists. split; [done|]. unfold dict_update, dict_pop.
    split_and!.
    + intros k v Hk. by apply lookup_union_Some_l.
    + intros k Hk Hne. rewrite lookup_union_r by done.
      by rewrite lookup_delete_ne.
    + intros Hk. rewrite lookup_union_r by done. by rewrite lookup_delete_eq.
Qed.

(** C7, what holds. When [X] is a numpy array with as many rows as
    [lookback_window] or fewer, [fit] raises the [ValueError] of
    [_validate_and_fix_size_of_X] and nothing has happened before: no
    windowing, no model built. *)
Theorem fit_rejects_short_array self a y :
  array_len a <= lookback_window self ->
  fit self (XArray a) y = ([], Raise (ValueError LookbackWindowTooLarge)).
Proof.
  intros Hlen. unfold fit, _validate_and_fix_size_of_X.
  destruct a as [xs|rows]; simpl in Hlen.
  - assert (Hrows : len ((fun x : F => [x]) <$> xs) = len xs)
      by (unfold len; by rewrite length_fmap).
    rewrite Hrows.
    destruct (lookback_window self >=? len xs) eqn:E; [reflexivity|lia].
  - cbv beta zeta. destruct (lookback_window self >=? _) eqn:E;
      [reflexivity|unfold ndarray, row in *; lia].
Qed.

(** ** Slices, and what the padding keeps *)

Lemma py_slice_in_range {A} (l : list A) (a b : Z) :
  0 <= a <= b -> b <= len l ->
  py_slice l a b = take (Z.to_nat (b - a)) (drop (Z.to_nat a) l).
Proof.
  intros Hab Hb. unfold py_slice, slice_bound.
  destruct (a <? 0) eqn:Ea; [lia|]. destruct (b <? 0) eqn:Eb; [lia|].
  by rewrite !Z.min_l by lia.
Qed.

Lemma py_slice_from_all {A} (l : list A) (m : Z) :
  len l <= m -> py_slice_from l (- m) = l.
Proof.
  intros Hm. pose proof (len_nonneg l) as Hl.
  unfold py_slice_from, py_slice, slice_bound.
  destruct (len l <? 0) eqn:E1; [lia|]. rewrite Z.min_id.
  destruct (- m <? 0) eqn:E2.
  - rewrite Z.max_r by lia. simpl. apply take_ge. unfold len. lia.
  - assert (m = 0) as -> by lia. assert (len l = 0) as Hl0 by lia.
    rewrite Hl0. simpl. destruct l; [done|]. unfold len in Hl0. simpl in *. lia.
Qed.

Lemma py_slice_from_zero {A} (l : list A) : py_slice_from l 0 = l.
Proof.
  pose proof (len_nonneg l) as Hl. unfold py_slice_from, py_slice, slice_bound.
  destruct (len l <? 0) eqn:E1; [lia|]. rewrite Z.min_id. simpl.
  rewrite Z.min_l by lia. simpl. apply take_ge. unfold len. lia.
Qed.

Lemma py_slice_from_last {A} (l : list A) (m : Z) :
  0 < m <= len l -> py_slice_from l (- m) = drop (Z.to_nat (len l - m)) l.
Proof.
  intros Hm. unfold py_slice_from, py_slice, slice_bound.
  destruct (len l <? 0) eqn:E1; [lia|]. rewrite Z.min_id.
  destruct (- m <? 0) eqn:E2; [|lia].
  rewrite Z.max_l by lia. replace (- m + len l) with (len l - m) by lia.
  apply take_ge. rewrite length_drop. unfold len. lia.
Qed.

Lemma py_slice_to_first {A} (l : list A) (m : Z) :
  0 <= m <= len l -> py_slice_to l m = take (Z.to_nat m) l.
Proof.
  intros Hm. unfold py_slice_to. rewrite py_slice_in_range by lia.
  by rewrite Z.sub_0_r.
Qed.

Lemma len_take {A} (l : list A) (m : Z) :
  0 <= m <= len l -> len (take (Z.to_nat m) l) = m.
Proof. intros Hm. unfold len in *. rewrite length_take. lia. Qed.

Lemma len_drop {A} (l : list A) (m : Z) :
  0 <= m <= len l -> len (drop (Z.to_nat m) l) = len l - m.
Proof. intros Hm. unfold len in *. rewrite length_drop. lia. Qed.

Lemma asarray_same (X : ndarray) : asarray X (dtype_of X) = X.
Proof. unfold asarray. by rewrite decide_True. Qed.

Lemma asarray_nil (d : dtype) : asarray [] d = [].
Proof. unfold asarray. by destruct (decide _). Qed.

Lemma len_asarray (a : ndarray) (d : dtype) : len (asarray a d) = len a.
Proof.
  unfold asarray, len. destruct (decide _); [done|]. by rewrite length_fmap.
Qed.

Lemma pad_sequences_negative (s : ndarray) (maxlen : Z) d padding truncating :
  maxlen < 0 ->
  pad_sequences s maxlen d padding truncating
  = Raise (ValueError NegativeDimensions).
Proof.
  intros Hm. unfold pad_sequences. destruct (maxlen <? 0) eqn:E; [done|lia].
Qed.

(** Padding by one row: [lookahead = 0]. *)
Lemma pad_sequences_post_one (s : ndarray) (d : dtype) :
  pad_sequences s (len s + 1) d post pre
  = Ok (asarray s d ++ [zero_row s d]).
Proof.
  pose proof (len_nonneg s) as Hs. unfold pad_sequences.
  destruct (len s + 1 <? 0) eqn:E0; [lia|].
  destruct (len s =? 0) eqn:E1.
  - destruct s; [|unfold len in *; simpl in *; lia]. by rewrite asarray_nil.
  - rewrite py_slice_from_all by (rewrite len_asarray; lia).
    rewrite len_asarray.
    destruct (len s <=? len s + 1) eqn:E2; [|lia].
    by replace (len s + 1 - len s) with 1 by lia.
Qed.

Lemma pad_sequences_pre_one (s : ndarray) (d : dtype) :
  pad_sequences s (len s + 1) d pre pre
  = Ok ([zero_row s d] ++ asarray s d).
Proof.
  pose proof (len_nonneg s) as Hs. unfold pad_sequences.
  destruct (len s + 1 <? 0) eqn:E0; [lia|].
  destruct (len s =? 0) eqn:E1.
  - destruct s; [|unfold len in *; simpl in *; lia]. by rewrite asarray_nil.
  - rewrite py_slice_from_all by (rewrite len_asarray; lia).
    rewrite len_asarray.
    destruct (len s <=? len s + 1) eqn:E2; [|lia].
    by replace (len s + 1 - len s) with 1 by lia.
Qed.

(** Truncation: [lookahead > 1]. *)
Lemma pad_sequences_post_truncate (s : ndarray) (maxlen : Z) (d : dtype) :
  0 <= maxlen < len s ->
  pad_sequences s maxlen d post post
  = Ok (take (Z.to_nat maxlen) (asarray s d)).
Proof.
  intros Hm. unfold pad_sequences.
  destruct (maxlen <? 0) eqn:E0; [lia|].
  destruct (len s =? 0) eqn:E1; [lia|].
  rewrite py_slice_to_first by (rewrite len_asarray; lia).
  rewrite len_take by (rewrite len_asarray; lia).
  destruct (maxlen <=? maxlen) eqn:E2; [|lia].
  rewrite Z.sub_diag. simpl. by rewrite app_nil_r.
Qed.

Lemma pad_sequences_pre_truncate (s : ndarray) (maxlen : Z) (d : dtype) s' :
  0 <= maxlen < len s ->
  pad_sequences s maxlen d pre pre = Ok s' ->
  s' = drop (Z.to_nat (len s - maxlen)) (asarray s d).
Proof.
  intros Hm. unfold pad_sequences. pose proof (len_asarray s d) as Hlen.
  destruct (maxlen <? 0) eqn:E0; [lia|].
  destruct (len s =? 0) eqn:E1; [lia|].
  destruct (decide (maxlen = 0)) as [->|Hne].
  - change (- 0) with 0. rewrite py_slice_from_zero. rewrite Hlen.
    destruct (len s <=? 0) eqn:E2; [lia|].
    destruct (len s =? 1) eqn:E3; [|done]. intros [= <-].
    rewrite Z.sub_0_r. rewrite drop_ge; [done|]. unfold len in *. lia.
  - rewrite py_slice_from_last by lia. rewrite len_drop by lia.
    rewrite Hlen.
    replace (len s - (len s - maxlen)) with maxlen by lia.
    destruct (maxlen <=? maxlen) eqn:E2; [|lia].
    rewrite Z.sub_diag. by intros [= <-].
Qed.

(** What the padding keeps of [X] and [y]: the rows of [X'] but the last
    are those of [X] at the same positions, and the row of [y'] at position
    [r + 1] is the row of [y] at position [r + lookahead], converted to the
    dtype of [X] unless the lookahead is 1. *)
Lemma pad_x_and_y_aligned (X y : ndarray) (lookahead : Z) X' y' :
  len X = len y -> 0 <= lookahead ->
  pad_x_and_y X y lookahead = Ok (X', y') ->
  len X' = len y' /\
  (forall q : nat, (q + 1 < length X')%nat ->
     X' !! q = X !! q /\ (q < length X)%nat) /\
  (forall r : nat, (r + 1 < length y')%nat ->
     y' !! (r + 1)%nat
     = (if lookahead =? 1 then y else asarray y (dtype_of X))
         !! (r + Z.to_nat lookahead)%nat).
Proof.
  intros Hlen Hk. pose proof (len_nonneg X) as HX. unfold pad_x_and_y.
  pose proof (len_asarray y (dtype_of X)) as Hleny.
  destruct (lookahead =? 1) eqn:E1.
  { intros [= <- <-]. assert (lookahead = 1) as -> by lia.
    split_and!; [done| |].
    - intros q Hq. split; [done|lia].
    - intros r Hr. done. }
  destruct (lookahead >=? 0) eqn:E0; [|lia]. cbv zeta.
  destruct (lookahead =? 0) eqn:E2.
  { assert (lookahead = 0) as -> by lia.
    replace (len X + 1 - 0) with (len X + 1) by lia.
    rewrite pad_sequences_post_one, asarray_same. simpl.
    rewrite Hlen at 1. rewrite pad_sequences_pre_one. simpl.
    intros [= <- <-]. split_and!.
    - unfold len in *. rewrite !length_app. simpl. lia.
    - intros q Hq. rewrite length_app in Hq. simpl in Hq.
      split; [|lia]. apply lookup_app_l. lia.
    - intros r Hr. simpl. by rewrite Nat.add_0_r, Nat.add_1_r. }
  destruct (lookahead >? 1) eqn:E3; [|lia].
  destruct (decide (len X + 1 - lookahead < 0)) as [Hneg|Hpos].
  { by rewrite (pad_sequences_negative X). }
  rewrite pad_sequences_post_truncate, asarray_same by lia. simpl.
  destruct (pad_sequences y _ _ pre pre) as [s'|] eqn:Ey; simpl; [|done].
  apply pad_sequences_pre_truncate in Ey; [|lia]. intros [= <- <-].
  subst s'.
  replace (len y - (len X + 1 - lookahead)) with (lookahead - 1) by lia.
  split_and!.
  - rewrite len_take, len_drop by lia. lia.
  - intros q Hq. rewrite length_take in Hq. unfold len in *.
    split; [|lia]. apply lookup_take_lt. lia.
  - intros r Hr. rewrite (lookup_drop (asarray y (dtype_of X))). f_equal. lia.
Qed.

(** A batch of a generator that does not shuffle: the window that ends
    before row [r] and the target at row [r], for the rows [r] of the batch. *)
Lemma TimeseriesGenerator_getitem_batch g n index :
  wf_generator g -> 0 <= tg_length g -> tg_shuffle g = false ->
  py_len g = Ok n -> 0 <= index < n ->
  exists samples targets,
    TimeseriesGenerator_getitem g index = Ok (samples, targets) /\
    length samples = length targets /\
    (0 < tg_batch_size g -> (0 < length samples)%nat) /\
    forall (j : nat) window target,
      samples !! j = Some window -> targets !! j = Some target ->
      let r := tg_length g + tg_batch_size g * index + Z.of_nat j in
      tg_length g <= r <= tg_end_index g /\
      window = take (Z.to_nat (tg_length g))
                 (drop (Z.to_nat (r - tg_length g)) (tg_data g)) /\
      tg_targets g !! Z.to_nat r = Some target.
Proof.
  intros (Hs & Hse & He & Hl) HL Hsh Hn Hi.
  apply py_len_Ok in Hn as (_ & _ & Hn).
  assert (Hb : 0 < tg_batch_size g ->
               tg_start_index g + tg_batch_size g * index <= tg_end_index g).
  { intros Hbs.
    assert (tg_batch_size g * n <=
            tg_end_index g - tg_start_index g + tg_batch_size g)
      by (subst n; apply Z.mul_div_le; lia).
    nia. }
  unfold TimeseriesGenerator_getitem. rewrite Hsh. simpl.
  set (i := tg_start_index g + tg_batch_size g * index) in *.
  set (rows := arange i (Z.min (i + tg_batch_size g) (tg_end_index g + 1))).
  assert (Hrows : forall (j : nat) r, rows !! j = Some r ->
            r = i + Z.of_nat j /\ i <= r <= tg_end_index g).
  { intros j r Hj. pose proof (lookup_lt_Some _ _ _ Hj) as Hlt.
    unfold rows in Hlt, Hj. rewrite length_arange in Hlt.
    rewrite lookup_arange in Hj by done. injection Hj as <-. lia. }
  assert (Hi0 : rows <> [] -> tg_start_index g <= i).
  { intros Hne. destruct rows as [|r rows'] eqn:Er; [done|].
    assert (0 < tg_batch_size g).
    { assert (Hlt : (0 < length rows)%nat) by (rewrite Er; simpl; lia).
      unfold rows in Hlt. rewrite length_arange in Hlt. lia. }
    unfold i. nia. }
  destruct (map_result_Ok (fun row => py_index (tg_targets g) row) rows)
    as (ys & -> & Hlen & Hys).
  { apply Forall_lookup. intros j r Hj.
    assert (Hne : rows <> []) by (intros Hnil; by rewrite Hnil in Hj).
    apply Hrows in Hj as [_ Hr]. apply Hi0 in Hne.
    destruct (py_index_in_range (tg_targets g) r) as (x & -> & _); [lia|done]. }
  simpl. eexists _, _. split; [done|]. rewrite length_fmap.
  split_and!; [done| |].
  { intros Hbs. specialize (Hb Hbs). unfold rows. rewrite length_arange. lia. }
  intros j window target Hw Ht.
  rewrite list_lookup_fmap in Hw.
  destruct (rows !! j) as [r|] eqn:Hj; [|done]. simpl in Hw.
  injection Hw as <-.
  assert (Hne : rows <> []) by (intros Hnil; by rewrite Hnil in Hj).
  apply Hi0 in Hne.
  pose proof (Hrows _ _ Hj) as [-> Hr].
  destruct (Hys _ _ Hj) as (t & Hidx & Ht'). rewrite Ht in Ht'.
  injection Ht' as <-.
  destruct (py_index_in_range (tg_targets g) (i + Z.of_nat j))
    as (x & Hx & Hx'); [lia|].
  rewrite Hx in Hidx. injection Hidx as <-.
  unfold i in *. rewrite Hs in *.
  split_and!; [lia|lia| |done].
  rewrite py_slice_in_range by lia. f_equal. lia.
Qed.

Lemma Table_len_values (t : Table) : Table_len t = len (Table_values t).
Proof. destruct t; simpl; [|done]. unfold len, values. by rewrite length_fmap. Qed.

(** ** The chunks of a table *)

Lemma chunk_scan_of_snoc step ts t :
  chunk_scan_of step (ts ++ [t])
  = chunk_scan_step step (chunk_scan_of step ts) (len ts, t).
Proof.
  unfold chunk_scan_of, enumerate, len.
  rewrite imap_app, fold_left_app. simpl. by rewrite Nat.add_0_r.
Qed.

Lemma find_consecutive_chunks_scan step df :
  find_consecutive_chunks step df
  = match prev_start (chunk_scan_of step (index df)) with
    | Some (prev_ts, start_ts) =>
        chunks (chunk_scan_of step (index df))
        ++ [mkChunk start_ts prev_ts
              (len (index df) - start_i (chunk_scan_of step (index df)))]
    | None => chunks (chunk_scan_of step (index df))
    end.
Proof. done. Qed.

Lemma chunks_spaced_snoc step cs c :
  chunks_spaced step cs ->
  spaced step (bool_decide (cs = [])) c ->
  chunks_spaced step (cs ++ [c]).
Proof.
  destruct cs as [|c0 rest]; simpl.
  - intros _ Hc. split; [done|constructor].
  - intros [H0 Hrest] Hc. split; [done|].
    apply Forall_app. split; [done|]. by apply Forall_singleton.
Qed.

Lemma chunk_scan_step_inv step k st t :
  0 <= k -> chunk_scan_inv step k st ->
  chunk_scan_inv step (k + 1) (chunk_scan_step step st (k, t)).
Proof.
  intros Hk (Hsum & Hsize & Hsp & Hst). unfold chunk_scan_step.
  destruct (prev_start st) as [[prev_ts start_ts]|] eqn:Eps.
  - destruct Hst as (Hlt & Hnil & Hcons & Hprev).
    destruct (t - prev_ts =? step) eqn:Estep.
    + unfold chunk_scan_inv. simpl. split_and!; [done..|lia|done| |].
      * intros Hne. specialize (Hcons Hne). lia.
      * lia.
    + unfold chunk_scan_inv. simpl. split_and!.
      * rewrite fmap_app, py_sum_app. simpl. lia.
      * apply Forall_app. split; [done|]. apply Forall_singleton. simpl. lia.
      * apply chunks_spaced_snoc; [done|]. unfold spaced. simpl. lia.
      * right. split_and!; [lia|lia|]. by destruct (chunks st).
  - unfold chunk_scan_inv. simpl. split_and!; [done..| | | |].
    + destruct Hst as [(? & ? & ?)|(? & ? & ?)]; lia.
    + intros Hnil. destruct Hst as [(? & ? & ?)|(? & ? & ?)]; [lia|done].
    + intros Hne. destruct Hst as [(? & ? & ?)|(? & ? & ?)]; [done|lia].
    + destruct Hst as [(? & Hnil & ?)|(? & ? & Hne)].
      * rewrite bool_decide_eq_true_2 by done. simpl. lia.
      * rewrite bool_decide_eq_false_2 by done. simpl. lia.
Qed.

Lemma chunk_scan_of_inv step ts :
  chunk_scan_inv step (len ts) (chunk_scan_of step ts).
Proof.
  induction ts as [|t ts IH] using rev_ind.
  - unfold chunk_scan_inv, chunk_scan_of. simpl. split_and!; [done..|].
    left. done.
  - rewrite chunk_scan_of_snoc.
    replace (len (ts ++ [t])) with (len ts + 1)
      by (unfold len; rewrite length_app; simpl; lia).
    apply chunk_scan_step_inv; [apply len_nonneg|done].
Qed.

(** X1. The sizes of the chunks of [find_consecutive_chunks]: every chunk
    counts at least one row, and together the chunks count every row of the
    table, or every row but one (the last row, when it follows a gap). *)
Theorem find_consecutive_chunks_sizes step df :
  Forall (fun c => 1 <= size c) (find_consecutive_chunks step df) /\
  len df - 1 <= py_sum (size <$> find_consecutive_chunks step df) <= len df.
Proof.
  rewrite find_consecutive_chunks_scan.
  assert (Hlen : len (index df) = len df)
    by (unfold len, index; by rewrite length_fmap).
  destruct (chunk_scan_of_inv step (index df)) as (Hsum & Hsize & _ & Hst).
  rewrite Hlen in *.
  destruct (prev_start _) as [[prev_ts start_ts]|].
  - destruct Hst as (Hlt & _). split.
    + apply Forall_app. split; [done|]. apply Forall_singleton. simpl. lia.
    + rewrite fmap_app, py_sum_app. simpl. lia.
  - split; [done|]. destruct Hst as [(? & ? & ?)|(? & ? & ?)]; lia.
Qed.

(** X2. The bounds of the chunks of [find_consecutive_chunks] against their
    sizes: the first chunk ends [size - 1] steps after its start; every later
    chunk ends [size - 2] steps after its start, one row fewer than its size
    counts. *)
Theorem find_consecutive_chunks_spacing step df (i : nat) c :
  find_consecutive_chunks step df !! i = Some c ->
  end_ts c = start_ts c + step * (size c - (if decide (i = 0%nat) then 1 else 2)).
Proof.
  rewrite find_consecutive_chunks_scan.
  assert (Hlen : len (index df) = len df)
    by (unfold len, index; by rewrite length_fmap).
  destruct (chunk_scan_of_inv step (index df)) as (_ & _ & Hsp & Hst).
  assert (Hall : chunks_spaced step
    match prev_start (chunk_scan_of step (index df)) with
    | Some (prev_ts, start_ts) =>
        chunks (chunk_scan_of step (index df))
        ++ [mkChunk start_ts prev_ts
              (len (index df) - start_i (chunk_scan_of step (index df)))]
    | None => chunks (chunk_scan_of step (index df))
    end).
  { destruct (prev_start _) as [[prev_ts start_ts]|]; [|done].
    destruct Hst as (_ & _ & _ & Hprev).
    apply chunks_spaced_snoc; [done|]. unfold spaced. simpl. lia. }
  revert Hall. generalize (match prev_start (chunk_scan_of step (index df)) with
    | Some (prev_ts, start_ts) =>
        chunks (chunk_scan_of step (index df))
        ++ [mkChunk start_ts prev_ts
              (len (index df) - start_i (chunk_scan_of step (index df)))]
    | None => chunks (chunk_scan_of step (index df))
    end).
  intros cs Hall Hi. destruct cs as [|c0 rest]; [done|].
  destruct Hall as [H0 Hrest]. destruct i as [|i]; simpl in Hi.
  - injection Hi as <-. exact H0.
  - destruct (decide (S i = 0%nat)); [done|].
    exact (proj1 (Forall_lookup _ _) Hrest _ _ Hi).
Qed.

Lemma regular_index_S t0 step n :
  regular_index t0 step (S n)
  = regular_index t0 step n ++ [t0 + step * Z.of_nat n].
Proof. unfold regular_index. by rewrite seq_S, fmap_app. Qed.

Lemma len_regular_index t0 step n : len (regular_index t0 step n) = Z.of_nat n.
Proof. unfold len, regular_index. by rewrite length_fmap, length_seq. Qed.

Lemma chunk_scan_of_regular step t0 n :
  chunk_scan_of step (regular_index t0 step (S n))
  = mkScan [] (Some (t0 + step * Z.of_nat n, t0)) 0.
Proof.
  induction n as [|n IH].
  - unfold chunk_scan_of, regular_index. simpl.
    unfold chunk_scan_step. simpl. do 3 f_equal. lia.
  - rewrite regular_index_S, chunk_scan_of_snoc, IH.
    unfold chunk_scan_step. simpl.
    replace (t0 + step * Z.of_nat (S n) - (t0 + step * Z.of_nat n) =? step)
      with true; [done|].
    symmetry. apply Z.eqb_eq. lia.
Qed.

(** X3. A table without rows has no chunk; a table of [n + 1] rows without
    gap has exactly one, from the first to the last timestamp, of the size of
    the table. *)
Theorem find_consecutive_chunks_regular step df t0 n :
  (index df = [] -> find_consecutive_chunks step df = []) /\
  (index df = regular_index t0 step (S n) ->
   find_consecutive_chunks step df
   = [mkChunk t0 (t0 + step * Z.of_nat n) (Z.of_nat (S n))]).
Proof.
  split; intros Hidx; rewrite find_consecutive_chunks_scan, Hidx.
  - done.
  - rewrite chunk_scan_of_regular. simpl. do 2 f_equal.
    rewrite len_regular_index. lia.
Qed.

(** ** [filter_chunks] *)

Lemma py_index_Ok_inv {A} (l : list A) (i : Z) x :
  py_index l i = Ok x ->
  - len l <= i < len l /\
  l !! Z.to_nat (if i <? 0 then i + len l else i) = Some x.
Proof.
  unfold py_index. intros Hx.
  destruct (l !! _) as [y|] eqn:El; [|done].
  destruct (i <? - len l) eqn:E1; [done|]. injection Hx as <-.
  split; [|done]. apply lookup_lt_Some in El. unfold len in *.
  destruct (i <? 0) eqn:E0; lia.
Qed.

Lemma py_index_Raise {A} (l : list A) (i : Z) e :
  py_index l i = Raise e ->
  e = IndexError (RowOutOfBounds i (len l)) /\ ~ (- len l <= i < len l).
Proof.
  unfold py_index. intros He.
  destruct (l !! _) as [y|] eqn:El.
  - destruct (i <? - len l) eqn:E1; [|done]. injection He as <-.
    split; [done|lia].
  - injection He as <-. split; [done|].
    apply lookup_ge_None in El. unfold len in *.
    destruct (i <? 0) eqn:E0; lia.
Qed.

Lemma map_result_Ok_inv {A B} (f : A -> result B) (l : list A) ys :
  map_result f l = Ok ys ->
  length ys = length l /\
  forall j x, l !! j = Some x -> exists y, f x = Ok y /\ ys !! j = Some y.
Proof.
  revert ys. induction l as [|x l IH]; intros ys; simpl.
  - intros [= <-]. split; [done|]. intros j x Hj. by rewrite lookup_nil in Hj.
  - destruct (f x) as [y|] eqn:Ey; simpl; [|done].
    destruct (map_result f l) as [ys'|] eqn:El; simpl; [|done].
    intros [= <-]. destruct (IH _ eq_refl) as [Hlen Hys]. simpl.
    split; [by f_equal|].
    intros [|j] x' Hj; simpl in *.
    + injection Hj as <-. by exists y.
    + by apply Hys.
Qed.

Lemma map_result_Raise {A B} (f : A -> result B) (l : list A) e :
  map_result f l = Raise e -> exists x, x ∈ l /\ f x = Raise e.
Proof.
  induction l as [|x l IH]; simpl; [done|].
  destruct (f x) as [y|e'] eqn:Ey; simpl.
  - destruct (map_result f l) as [ys'|e''] eqn:El; simpl; [done|].
    intros [= <-]. destruct (IH eq_refl) as (x' & Hx' & Hf).
    exists x'. split; [by right|done].
  - intros [= <-]. exists x. split; [by left|done].
Qed.

(** X4. [filter_chunks(indexes)] keeps the containers at the given
    positions, in the order given, a negative position counting from the
    end; it raises an [IndexError] as soon as a position is out of the list
    of containers; and without [indexes] the generator stays as it is. *)
Theorem filter_chunks_positions (g : GordoTimeseriesGenerator)
    (indexes : list Z) :
  let n := len (generators_containers g) in
  filter_chunks g None = Ok g /\
  (Forall (fun i => - n <= i < n) indexes ->
   exists g',
     filter_chunks g (Some indexes) = Ok g' /\
     length (generators_containers g') = length indexes /\
     forall (j : nat) i,
       indexes !! j = Some i ->
       generators_containers g' !! j
       = generators_containers g !! Z.to_nat (if i <? 0 then i + n else i)) /\
  (~ Forall (fun i => - n <= i < n) indexes ->
   exists i,
     i ∈ indexes /\ ~ (- n <= i < n) /\
     filter_chunks g (Some indexes) = Raise (IndexError (RowOutOfBounds i n))).
Proof.
  cbv zeta. split; [done|]. unfold filter_chunks.
  destruct (map_result (fun i => py_index (generators_containers g) i) indexes)
    as [containers|e] eqn:Emap.
  - apply map_result_Ok_inv in Emap as [Hlen Hall]. split.
    + intros _. eexists. split; [done|]. simpl. split; [done|].
      intros j i Hj. destruct (Hall j i Hj) as (c & Hc & ->).
      apply py_index_Ok_inv in Hc as [_ Hc]. by rewrite Hc.
    + intros Hnot. exfalso. apply Hnot. apply Forall_lookup. intros j i Hj.
      destruct (Hall j i Hj) as (c & Hc & _).
      by apply py_index_Ok_inv in Hc as [? _].
  - apply map_result_Raise in Emap as (i & Hi & He).
    apply py_index_Raise in He as [-> Hout]. split.
    + intros Hall. exfalso. apply Hout.
      exact (proj1 (Forall_forall _ _) Hall _ Hi).
    + intros _. by exists i.
Qed.

(** X5. [filter_chunks] with every position, in order, gives the generator
    back. *)
Theorem filter_chunks_all (g : GordoTimeseriesGenerator) :
  filter_chunks g (Some (arange 0 (len (generators_containers g)))) = Ok g.
Proof.
  unfold filter_chunks.
  destruct (map_result_Ok (fun i => py_index (generators_containers g) i)
              (arange 0 (len (generators_containers g))))
    as (ys & -> & Hlen & Hys).
  { apply Forall_forall. intros i Hi. apply elem_of_arange in Hi.
    destruct (py_index_in_range (generators_containers g) i) as (x & -> & _);
      [lia|done]. }
  simpl. rewrite length_arange in Hlen.
  assert (ys = generators_containers g) as ->.
  { apply list_eq. intros j.
    destruct (decide (j < length (generators_containers g))%nat) as [Hj|Hj].
    - destruct (Hys j (0 + Z.of_nat j)) as (y & Hy & ->).
      { apply lookup_arange. unfold len. lia. }
      destruct (py_index_in_range (generators_containers g) (0 + Z.of_nat j))
        as (x & Hx & Hx'); [unfold len; lia|].
      rewrite Hx in Hy. injection Hy as <-.
      rewrite <- Hx'. f_equal. lia.
    - rewrite (proj2 (lookup_ge_None _ _)) by (unfold len in *; lia).
      symmetry. apply lookup_ge_None. lia. }
  by destruct g.
Qed.

(** The global index on any list of containers whose window counts are not
    negative. *)
Lemma getitem_on_containers (g : GordoTimeseriesGenerator) :
  Forall (fun c => 0 <= length_ c) (generators_containers g) ->
  (forall i, 0 <= i < GordoTimeseriesGenerator_len g ->
     exists k c,
       generators_containers g !! k = Some c /\
       0 <= i - windows_before (generators_containers g) k < length_ c /\
       GordoTimeseriesGenerator_getitem g i
         = TimeseriesGenerator_getitem (generator c)
             (i - windows_before (generators_containers g) k)) /\
  (forall i, GordoTimeseriesGenerator_len g <= i ->
     GordoTimeseriesGenerator_getitem g i = Raise (IndexError (GlobalIndex i))).
Proof.
  intros Hnn. split.
  - intros i Hi. unfold GordoTimeseriesGenerator_len in Hi.
    destruct (locate_found (generators_containers g) (-1) i Hnn)
      as (k & c & Hk & Hloc & Hr); [lia..|].
    replace (i - (-1 + 1 + windows_before (generators_containers g) k))
      with (i - windows_before (generators_containers g) k) in * by lia.
    exists k, c. split_and!; [done|lia|lia|].
    unfold GordoTimeseriesGenerator_getitem. by rewrite Hloc.
  - intros i Hi. unfold GordoTimeseriesGenerator_getitem.
    rewrite locate_past_end; [done| |done].
    unfold GordoTimeseriesGenerator_len in Hi. lia.
Qed.

(** X6. After [filter_chunks] the generator indexes the containers that are
    left: its length is the sum of their window counts, every index below it
    is sent to one of them at its local index, and every index from the
    length on raises the [IndexError] of the global index; with no container
    left, every index that is not negative raises it. *)
Theorem filter_chunks_global_index data targets window batch_size shuffle step
    lookahead g indexes g' :
  GordoTimeseriesGenerator_init data targets window batch_size shuffle step
    lookahead = Ok g ->
  filter_chunks g indexes = Ok g' ->
  Forall (fun c => c ∈ generators_containers g) (generators_containers g') /\
  (forall i, 0 <= i < GordoTimeseriesGenerator_len g' ->
     exists k c,
       generators_containers g' !! k = Some c /\
       0 <= i - windows_before (generators_containers g') k < length_ c /\
       GordoTimeseriesGenerator_getitem g' i
         = TimeseriesGenerator_getitem (generator c)
             (i - windows_before (generators_containers g') k)) /\
  (forall i, GordoTimeseriesGenerator_len g' <= i ->
     GordoTimeseriesGenerator_getitem g' i = Raise (IndexError (GlobalIndex i))) /\
  (indexes = Some [] -> GordoTimeseriesGenerator_len g' = 0).
Proof.
  intros Hinit Hfilter.
  destruct (GordoTimeseriesGenerator_init_nonneg _ _ _ _ _ _ _ _ Hinit)
    as [_ Hnn].
  assert (Hsub : Forall (fun c => c ∈ generators_containers g)
                   (generators_containers g')).
  { destruct indexes as [indexes|]; simpl in Hfilter.
    - destruct (map_result _ indexes) as [containers|] eqn:Emap;
        simpl in Hfilter; [|done].
      injection Hfilter as <-. simpl.
      apply map_result_Ok_inv in Emap as [Hlen Hall].
      apply Forall_lookup. intros j c Hj.
      assert (Hlt : (j < length indexes)%nat)
        by (rewrite <- Hlen; by eapply lookup_lt_Some).
      destruct (lookup_lt_is_Some_2 _ _ Hlt) as [i Hi].
      destruct (Hall j i Hi) as (c' & Hc' & Hj'). rewrite Hj in Hj'.
      injection Hj' as <-. apply py_index_Ok_inv in Hc' as [_ Hc'].
      by eapply list_elem_of_lookup_2.
    - injection Hfilter as <-. apply Forall_forall. done. }
  assert (Hnn' : Forall (fun c => 0 <= length_ c) (generators_containers g')).
  { eapply Forall_impl; [exact Hsub|]. intros c Hc. simpl in Hc.
    exact (proj1 (Forall_forall _ _) Hnn _ Hc). }
  destruct (getitem_on_containers g' Hnn') as [H1 H2].
  split_and!; [done..|].
  intros ->. simpl in Hfilter. by injection Hfilter as <-.
Qed.

(** ** Registering a generator type *)

(** X7. Registering a type under a free name: the default type and the
    other names stay, a configuration that names the type now builds it from
    the rest of the configuration under the shared keyword arguments, and
    registering the name again raises a [ValueError]. Registering under a
    name that is taken raises it at once. *)
Theorem register_then_create {T} (self self' : TimeseriesGeneratorTypes T)
    (type_name : string) (cls : gmap string pyvalue -> result T) :
  register self type_name cls = Ok self' ->
  _types self !! type_name = None /\
  default_type self' = default_type self /\
  (forall n, n <> type_name -> _types self' !! n = _types self !! n) /\
  (forall (config kwargs : gmap string pyvalue),
     config !! "type" = Some (PyStr type_name) ->
     create_from_config self' (Some config) kwargs
     = cls (dict_update (dict_pop "type" config) kwargs)) /\
  (forall cls',
     register self' type_name cls'
     = Raise (ValueError (TypeAlreadyExists type_name))).
Proof.
  unfold register. destruct (_types self !! type_name) eqn:Efree; [done|].
  intros [= <-]. simpl. split_and!; [done|done| | |].
  - intros n Hn. by rewrite lookup_insert_ne.
  - intros config kwargs Hty. unfold create_from_config. rewrite Hty. simpl.
    by rewrite lookup_insert_eq.
  - intros cls'. by rewrite lookup_insert_eq.
Qed.

(** ** The lengths after padding *)

Lemma len_app {A} (l1 l2 : list A) : len (l1 ++ l2) = len l1 + len l2.
Proof. unfold len. rewrite length_app. lia. Qed.

Lemma len_replicate {A} (n : Z) (x : A) :
  0 <= n -> len (replicate (Z.to_nat n) x) = n.
Proof. intros Hn. unfold len. rewrite length_replicate. lia. Qed.

Lemma pad_sequences_len (s : ndarray) maxlen d padding truncating s' :
  pad_sequences s maxlen d padding truncating = Ok s' -> len s' = maxlen.
Proof.
  unfold pad_sequences. destruct (maxlen <? 0) eqn:E0; [done|].
  destruct (len s =? 0); [intros [= <-]; apply len_replicate; lia|].
  destruct (len _ <=? maxlen) eqn:E1.
  - intros [= <-].
    destruct padding; rewrite len_app, len_replicate by lia; lia.
  - destruct (len _ =? 1); [|done]. intros [= <-]. apply len_replicate. lia.
Qed.

Lemma len_py_slice {A} (l : list A) (a b : Z) : len (py_slice l a b) <= len l.
Proof.
  unfold py_slice, len. rewrite length_take, length_drop. lia.
Qed.

Lemma len_py_slice_from_neg {A} (l : list A) (m : Z) :
  0 < m -> len (py_slice_from l (- m)) <= m.
Proof.
  intros Hm. unfold py_slice_from, py_slice, slice_bound.
  destruct (- m <? 0) eqn:E; [|lia].
  pose proof (len_nonneg l) as Hl. destruct (len l <? 0) eqn:E1; [lia|].
  rewrite Z.min_id. unfold len in *. rewrite length_take, length_drop. lia.
Qed.

Lemma len_py_slice_to {A} (l : list A) (m : Z) :
  0 <= m -> len (py_slice_to l m) <= m.
Proof.
  intros Hm. unfold py_slice_to, py_slice, slice_bound.
  pose proof (len_nonneg l) as Hl. simpl.
  destruct (m <? 0) eqn:E; [lia|].
  unfold len in *. rewrite length_take, length_drop. lia.
Qed.

Lemma pad_sequences_Ok (s : ndarray) maxlen d padding truncating :
  0 < maxlen -> is_Ok (pad_sequences s maxlen d padding truncating).
Proof.
  intros Hm. unfold pad_sequences. destruct (maxlen <? 0) eqn:E0; [lia|].
  destruct (len s =? 0); [done|].
  assert (Hle : len match truncating with
                    | pre => py_slice_from (asarray s d) (- maxlen)
                    | post => py_slice_to (asarray s d) maxlen
                    end <= maxlen).
  { destruct truncating;
      [by apply len_py_slice_from_neg|apply len_py_slice_to; lia]. }
  destruct (len _ <=? maxlen) eqn:E1; [done|lia].
Qed.

(** X8. When [pad_x_and_y] returns for a lookahead other than 1, both arrays
    have [len(X) + 1 - lookahead] rows, whatever the length of [y] was. *)
Theorem pad_x_and_y_lengths (X y : ndarray) lookahead X' y' :
  lookahead <> 1 ->
  pad_x_and_y X y lookahead = Ok (X', y') ->
  len X' = len X + 1 - lookahead /\ len y' = len X + 1 - lookahead.
Proof.
  intros Hne. unfold pad_x_and_y.
  destruct (lookahead =? 1) eqn:E1; [lia|].
  destruct (lookahead >=? 0) eqn:E0; [|done].
  destruct (lookahead =? 0) eqn:E3.
  - destruct (pad_sequences X _ _ _ _) as [X1|] eqn:EX; simpl; [|done].
    destruct (pad_sequences y _ _ _ _) as [y1|] eqn:Ey; simpl; [|done].
    intros [= <- <-].
    by rewrite (pad_sequences_len _ _ _ _ _ _ EX), (pad_sequences_len _ _ _ _ _ _ Ey).
  - destruct (lookahead >? 1) eqn:E2; [|lia].
    destruct (pad_sequences X _ _ _ _) as [X1|] eqn:EX; simpl; [|done].
    destruct (pad_sequences y _ _ _ _) as [y1|] eqn:Ey; simpl; [|done].
    intros [= <- <-].
    by rewrite (pad_sequences_len _ _ _ _ _ _ EX), (pad_sequences_len _ _ _ _ _ _ Ey).
Qed.

Lemma pad_x_and_y_Ok (X y : ndarray) lookahead :
  0 <= lookahead <= len X -> is_Ok (pad_x_and_y X y lookahead).
Proof.
  intros Hk. unfold pad_x_and_y. destruct (lookahead =? 1); [done|].
  destruct (lookahead >=? 0) eqn:E0; [|lia].
  assert (HX' : forall p t,
            is_Ok (pad_sequences X (len X + 1 - lookahead) (dtype_of X) p t))
    by (intros; apply pad_sequences_Ok; lia).
  assert (Hy' : forall p t,
            is_Ok (pad_sequences y (len X + 1 - lookahead) (dtype_of X) p t))
    by (intros; apply pad_sequences_Ok; lia).
  destruct (lookahead =? 0).
  - specialize (HX' post pre). specialize (Hy' pre pre).
    destruct (pad_sequences X _ _ _ _); [|done].
    by destruct (pad_sequences y _ _ _ _).
  - destruct (lookahead >? 1); [|done].
    specialize (HX' post post). specialize (Hy' pre pre).
    destruct (pad_sequences X _ _ _ _); [|done].
    by destruct (pad_sequences y _ _ _ _).
Qed.

Lemma pad_x_and_y_len_data (X y : ndarray) lookahead X' y' :
  pad_x_and_y X y lookahead = Ok (X', y') ->
  len X' = len X + 1 - lookahead.
Proof.
  unfold pad_x_and_y.
  destruct (lookahead =? 1) eqn:E1; [intros [= <- <-]; lia|].
  destruct (lookahead >=? 0) eqn:E0; [|done].
  destruct (lookahead =? 0) eqn:E3.
  - destruct (pad_sequences X _ _ _ _) as [X1|] eqn:EX; simpl; [|done].
    destruct (pad_sequences y _ _ _ _) as [y1|] eqn:Ey; simpl; [|done].
    intros [= <- <-]. by apply pad_sequences_len in EX.
  - destruct (lookahead >? 1) eqn:E2; [|lia].
    destruct (pad_sequences X _ _ _ _) as [X1|] eqn:EX; simpl; [|done].
    destruct (pad_sequences y _ _ _ _) as [y1|] eqn:Ey; simpl; [|done].
    intros [= <- <-]. by apply pad_sequences_len in EX.
Qed.

Lemma pad_sequences_Raise (s : ndarray) maxlen d padding truncating e :
  pad_sequences s maxlen d padding truncating = Raise e ->
  exists m, e = ValueError m.
Proof.
  unfold pad_sequences. destruct (maxlen <? 0); [intros [= <-]; by eexists|].
  destruct (len s =? 0); [done|]. destruct (len _ <=? maxlen); [done|].
  destruct (len _ =? 1); [done|]. intros [= <-]. by eexists.
Qed.

Lemma pad_x_and_y_Raise (X y : ndarray) lookahead e :
  pad_x_and_y X y lookahead = Raise e -> exists m, e = ValueError m.
Proof.
  unfold pad_x_and_y. destruct (lookahead =? 1); [done|].
  destruct (lookahead >=? 0); [|intros [= <-]; by eexists].
  destruct (lookahead =? 0).
  - destruct (pad_sequences X _ _ _ _) as [X1|] eqn:EX; simpl.
    + destruct (pad_sequences y _ _ _ _) as [y1|] eqn:Ey; simpl; [done|].
      intros [= <-]. by eapply pad_sequences_Raise.
    + intros [= <-]. by eapply pad_sequences_Raise.
  - destruct (lookahead >? 1); [|done].
    destruct (pad_sequences X _ _ _ _) as [X1|] eqn:EX; simpl.
    + destruct (pad_sequences y _ _ _ _) as [y1|] eqn:Ey; simpl; [done|].
      intros [= <-]. by eapply pad_sequences_Raise.
    + intros [= <-]. by eapply pad_sequences_Raise.
Qed.

(** X9. The lookaheads that [pad_x_and_y] takes: it returns for every
    lookahead from 0 to the number of rows of [X], whatever [y] is; it raises
    a [ValueError] for a negative lookahead, and for a lookahead above the
    number of rows plus one. *)
Theorem pad_x_and_y_domain (X y : ndarray) lookahead :
  (0 <= lookahead <= len X -> is_Ok (pad_x_and_y X y lookahead)) /\
  (lookahead < 0 ->
   pad_x_and_y X y lookahead = Raise (ValueError (NegativeLookahead lookahead))) /\
  (len X + 1 < lookahead ->
   pad_x_and_y X y lookahead = Raise (ValueError NegativeDimensions)).
Proof.
  pose proof (len_nonneg X) as HX. split_and!.
  - apply pad_x_and_y_Ok.
  - intros Hk. unfold pad_x_and_y. destruct (lookahead =? 1) eqn:E1; [lia|].
    by destruct (lookahead >=? 0) eqn:E0; [lia|].
  - intros Hk. unfold pad_x_and_y. destruct (lookahead =? 1) eqn:E1; [lia|].
    destruct (lookahead >=? 0) eqn:E0; [|lia].
    destruct (lookahead =? 0) eqn:E2; [lia|].
    destruct (lookahead >? 1) eqn:E3; [|lia].
    by rewrite (pad_sequences_negative X) by lia.
Qed.

(** X10. Data and targets of different lengths in the default generator:
    with lookahead 1 the Keras generator refuses them with a [ValueError];
    with lookahead 0 the padding brings both to [len(X) + 1] rows and the
    generator is built, for every lookback window from 0 to [len(X)]. *)
Theorem default_generator_on_different_lengths (X y : Table) batch_size
    lookback_window :
  (Table_len X <> Table_len y ->
   create_keras_timeseriesgenerator X y batch_size lookback_window 1 None
   = Raise (ValueError (KerasDataTargetsLength (Table_len X) (Table_len y)))) /\
  (0 <= lookback_window <= Table_len X ->
   exists g,
     create_keras_timeseriesgenerator X y batch_size lookback_window 0 None
       = Ok (Default g) /\
     len (tg_data g) = Table_len X + 1 /\
     len (tg_targets g) = Table_len X + 1).
Proof.
  rewrite !Table_len_values. split.
  - intros Hne. rewrite create_keras_timeseriesgenerator_default.
    unfold pad_x_and_y. simpl. unfold TimeseriesGenerator_init.
    destruct (len _ =? len _) eqn:E; [lia|done].
  - intros HL. rewrite create_keras_timeseriesgenerator_default.
    pose proof (len_nonneg (Table_values X)) as HX.
    unfold pad_x_and_y. simpl.
    pose proof (pad_sequences_Ok (Table_values X)
                  (len (Table_values X) + 1 - 0)
                  (dtype_of (Table_values X)) post pre) as HokX.
    pose proof (pad_sequences_Ok (Table_values y)
                  (len (Table_values X) + 1 - 0)
                  (dtype_of (Table_values X)) pre pre) as Hoky.
    destruct (pad_sequences (Table_values X) _ _ post pre) as [X'|] eqn:EX;
      [|exfalso; apply HokX; lia].
    destruct (pad_sequences (Table_values y) _ _ pre pre) as [y'|] eqn:Ey;
      [|exfalso; apply Hoky; lia].
    apply pad_sequences_len in EX as HX'. apply pad_sequences_len in Ey as Hy'.
    simpl. unfold TimeseriesGenerator_init.
    destruct (len X' =? len y') eqn:E; [|lia]. simpl.
    destruct (0 + lookback_window >? len X' - 1) eqn:E1; [lia|].
    simpl. eexists. split; [done|]. simpl. lia.
Qed.

(** ** The batches of the default generator *)

(** The default generator on tables of the same length, when the lookback
    window and the lookahead fit in. *)
Lemma default_generator_built (X y : Table) batch_size lookback_window
    lookahead :
  Table_len X = Table_len y -> 0 <= lookback_window -> 0 <= lookahead ->
  lookback_window + lookahead <= Table_len X ->
  exists g X' y',
    pad_x_and_y (Table_values X) (Table_values y) lookahead = Ok (X', y') /\
    create_keras_timeseriesgenerator X y batch_size lookback_window lookahead
      None = Ok (Default g) /\
    wf_generator g /\ tg_length g = lookback_window /\
    tg_batch_size g = batch_size /\ tg_shuffle g = false /\
    tg_data g = X' /\ tg_targets g = y' /\
    len X' = Table_len X + 1 - lookahead.
Proof.
  rewrite !Table_len_values. intros Hlen HL Hk Hfit.
  rewrite create_keras_timeseriesgenerator_default.
  pose proof (pad_x_and_y_Ok (Table_values X) (Table_values y) lookahead) as Hok.
  destruct (pad_x_and_y _ _ _) as [[X' y']|] eqn:Epad;
    [|exfalso; apply Hok; lia].
  pose proof (pad_x_and_y_len_data _ _ _ _ _ Epad) as HX'.
  destruct (pad_x_and_y_aligned _ _ _ _ _ Hlen Hk Epad) as (Hl' & _ & _).
  simpl. unfold TimeseriesGenerator_init.
  destruct (len X' =? len y') eqn:E; [|lia]. simpl.
  destruct (0 + lookback_window >? len X' - 1) eqn:E1; [lia|]. simpl.
  eexists _, X', y'. split_and!; try done. unfold wf_generator. simpl. lia.
Qed.

(** X11. The default generator on tables of [n] rows, for a lookback window
    and a lookahead that are not negative and a positive batch size: it is
    built when [lookback_window + lookahead <= n], and then has
    [(n - lookback_window - lookahead + batch_size) // batch_size] batches
    (9 for the 100 rows, window 20, lookahead 0 and batch size 10 of the
    docstring); otherwise it is refused with a [ValueError]. *)
Theorem default_generator_batches (X y : Table) batch_size lookback_window
    lookahead :
  Table_len X = Table_len y -> 0 <= lookback_window -> 0 <= lookahead ->
  0 < batch_size ->
  (lookback_window + lookahead <= Table_len X ->
   exists tsg,
     create_keras_timeseriesgenerator X y batch_size lookback_window lookahead
       None = Ok tsg /\
     Sequence_len tsg
     = Ok ((Table_len X - lookback_window - lookahead + batch_size)
           / batch_size)) /\
  (Table_len X < lookback_window + lookahead ->
   exists m,
     create_keras_timeseriesgenerator X y batch_size lookback_window lookahead
       None = Raise (ValueError m)).
Proof.
  intros Hlen HL Hk Hbs. split.
  - intros Hfit.
    destruct (default_generator_built X y batch_size lookback_window lookahead)
      as (g & X' & y' & _ & -> & (Hs & Hse & He & _) & HgL & Hgb & _ & Hgd & _
          & HX'); [done..|].
    exists (Default g). split; [done|]. simpl.
    unfold py_len, TimeseriesGenerator_len__. rewrite Hgb.
    destruct (batch_size =? 0) eqn:E0; [lia|]. simpl.
    rewrite He, Hs, HgL, Hgd, HX'.
    replace (Table_len X + 1 - lookahead - 1 - lookback_window + batch_size)
      with (Table_len X - lookback_window - lookahead + batch_size) by lia.
    destruct (_ / _ <? 0) eqn:En; [|done].
    assert (0 <= (Table_len X - lookback_window - lookahead + batch_size)
                 / batch_size) by (apply Z.div_pos; lia).
    lia.
  - intros Hshort. rewrite create_keras_timeseriesgenerator_default.
    rewrite Table_len_values in *.
    destruct (pad_x_and_y _ _ _) as [[X' y']|e] eqn:Epad; simpl.
    + pose proof (pad_x_and_y_len_data _ _ _ _ _ Epad) as HX'.
      unfold TimeseriesGenerator_init.
      destruct (negb (len X' =? len y')); simpl; [by eexists|].
      destruct (0 + lookback_window >? len X' - 1) eqn:E1; simpl; [by eexists|].
      lia.
    + apply pad_x_and_y_Raise in Epad as [m ->]. by eexists.
Qed.

(** ** What [predict] hands to the model *)

Lemma arange_app (a b c : Z) :
  a <= b <= c -> arange a b ++ arange b c = arange a c.
Proof.
  intros Habc. unfold arange.
  replace (Z.to_nat (c - a)) with (Z.to_nat (b - a) + Z.to_nat (c - b))%nat
    by lia.
  rewrite seq_app, fmap_app. f_equal.
  replace (seq (0 + Z.to_nat (b - a)) (Z.to_nat (c - b)))
    with (Nat.add (Z.to_nat (b - a)) <$> seq 0 (Z.to_nat (c - b)))
    by (rewrite fmap_add_seq; f_equal; lia).
  rewrite <- list_fmap_compose.
  apply list_fmap_ext. intros j k _. simpl. lia.
Qed.

Lemma arange_S (a : Z) (m : nat) :
  arange a (a + Z.of_nat (S m)) = arange a (a + Z.of_nat m) ++ [a + Z.of_nat m].
Proof.
  rewrite <- (arange_app a (a + Z.of_nat m)) by lia. f_equal.
  unfold arange. replace (Z.to_nat _) with 1%nat by lia. simpl.
  f_equal. lia.
Qed.

Lemma map_result_app {A B} (f : A -> result B) (l1 l2 : list A) ys1 ys2 :
  map_result f l1 = Ok ys1 -> map_result f l2 = Ok ys2 ->
  map_result f (l1 ++ l2) = Ok (ys1 ++ ys2).
Proof.
  revert ys1. induction l1 as [|x l1 IH]; intros ys1; simpl.
  - by intros [= <-].
  - destruct (f x) as [y|]; simpl; [|done].
    destruct (map_result f l1) as [ys|] eqn:E1; simpl; [|done].
    intros [= <-] H2. by rewrite (IH _ eq_refl H2).
Qed.

(** The windows of one batch, for a generator that does not shuffle. *)
Lemma TimeseriesGenerator_getitem_samples g n index :
  wf_generator g -> 0 <= tg_length g -> tg_shuffle g = false ->
  py_len g = Ok n -> 0 <= index < n ->
  exists targets,
    TimeseriesGenerator_getitem g index
    = Ok ((fun row => py_slice (tg_data g) (row - tg_length g) row)
            <$> arange (tg_start_index g + tg_batch_size g * index)
                  (Z.min (tg_start_index g + tg_batch_size g * index
                          + tg_batch_size g) (tg_end_index g + 1)),
          targets) /\
    forall (j : nat) target,
      targets !! j = Some target ->
      tg_targets g
        !! Z.to_nat (tg_start_index g + tg_batch_size g * index + Z.of_nat j)
      = Some target.
Proof.
  intros Hwf HL Hsh Hn Hi.
  destruct (TimeseriesGenerator_getitem_batch g n index Hwf HL Hsh Hn Hi)
    as (samples & targets & Hget & Hlen & _ & Hall).
  exists targets. unfold TimeseriesGenerator_getitem in *.
  rewrite Hsh in *. simpl in *.
  destruct (map_result _ _) as [ts|] eqn:Emap; simpl in *; [|done].
  injection Hget as <- <-. split; [done|].
  intros j target Hj.
  assert (Hlt : (j < length ts)%nat) by (by eapply lookup_lt_Some).
  rewrite <- Hlen in Hlt.
  destruct (lookup_lt_is_Some_2 _ _ Hlt) as [window Hw].
  destruct (Hall j window target Hw Hj) as (_ & _ & Htar).
  destruct Hwf as (Hs & _). by rewrite Hs.
Qed.

(** [predict_generator] on a generator that does not shuffle: the model on
    the window before each row, from the first row after a window to the last
    row. *)
Lemma predict_generator_Default g :
  wf_generator g -> 0 <= tg_length g -> 0 < tg_batch_size g ->
  tg_shuffle g = false ->
  predict_generator (Default g)
  = Ok (network
          <$> ((fun row => py_slice (tg_data g) (row - tg_length g) row)
                 <$> arange (tg_start_index g) (tg_end_index g + 1))).
Proof.
  intros Hwf HL Hbs Hsh. unfold predict_generator. simpl.
  destruct (py_len g) as [n|] eqn:En; simpl.
  2: { unfold py_len, TimeseriesGenerator_len__ in En.
       destruct (tg_batch_size g =? 0) eqn:E0; [lia|]. simpl in En.
       destruct (_ <? 0) eqn:E1; [|done].
       destruct Hwf as (_ & Hse & _).
       assert (0 <= (tg_end_index g - tg_start_index g + tg_batch_size g)
                    / tg_batch_size g) by (apply Z.div_pos; lia).
       lia. }
  pose proof (py_len_Ok _ _ En) as (_ & Hn0 & Hn).
  assert (Hdiv : tg_batch_size g * n
                 <= tg_end_index g - tg_start_index g + tg_batch_size g
                 < tg_batch_size g * n + tg_batch_size g).
  { subst n. split; [apply Z.mul_div_le; lia|].
    pose proof (Z.mod_pos_bound
      (tg_end_index g - tg_start_index g + tg_batch_size g) (tg_batch_size g)
      Hbs).
    pose proof (Z.div_mod
      (tg_end_index g - tg_start_index g + tg_batch_size g) (tg_batch_size g)).
    lia. }
  assert (Hind : forall m : nat, Z.of_nat m <= n ->
    exists batches,
      map_result (fun i => TimeseriesGenerator_getitem g i)
        (arange 0 (0 + Z.of_nat m)) = Ok batches /\
      concat ((fun b : batch => network <$> b.1) <$> batches)
      = network
          <$> ((fun row => py_slice (tg_data g) (row - tg_length g) row)
                 <$> arange (tg_start_index g)
                       (Z.min (tg_start_index g
                               + tg_batch_size g * Z.of_nat m)
                          (tg_end_index g + 1)))).
  { induction m as [|m IH]; intros Hm.
    - exists []. split; [done|]. simpl.
      replace (arange _ _) with (@nil Z); [done|].
      unfold arange. by replace (Z.to_nat _) with 0%nat by lia.
    - destruct IH as (batches & Hmap & Hcat); [lia|].
      destruct (TimeseriesGenerator_getitem_samples g n (Z.of_nat m))
        as (targets & Hget & _); [done..|lia|].
      eexists. split.
      + rewrite arange_S. eapply map_result_app; [exact Hmap|].
        simpl. replace (0 + Z.of_nat m) with (Z.of_nat m) by lia.
        rewrite Hget. done.
      + rewrite fmap_app, concat_app, Hcat. simpl. rewrite app_nil_r.
        rewrite <- !fmap_app. do 2 f_equal.
        rewrite Z.min_l by nia.
        replace (tg_start_index g + tg_batch_size g * Z.of_nat (S m))
          with (tg_start_index g + tg_batch_size g * Z.of_nat m
                + tg_batch_size g) by lia.
        apply arange_app. destruct Hwf as (_ & Hse & _). nia. }
  destruct (Hind (Z.to_nat n)) as (batches & Hmap & Hcat); [lia|].
  replace (0 + Z.of_nat (Z.to_nat n)) with n in Hmap by lia.
  rewrite Hmap. simpl. rewrite Hcat. do 3 f_equal.
  rewrite Z.min_r; [done|]. nia.
Qed.

Lemma array_len_rows (a : array) : array_len a = len (array_rows a).
Proof. destruct a; simpl; [|done]. unfold len. by rewrite length_fmap. Qed.

Lemma validate_and_fix_size_of_X_Ok self a :
  lookback_window self < array_len a ->
  _validate_and_fix_size_of_X self a = Ok (array_rows a).
Proof.
  intros HL. rewrite array_len_rows in HL.
  unfold _validate_and_fix_size_of_X.
  destruct (lookback_window self >=? _) eqn:E; [|done].
  unfold array_rows, ndarray, row in *. lia.
Qed.

Lemma KerasLSTMBaseEstimator_lookahead_range self :
  KerasLSTMBaseEstimator_lookahead self = 0
  \/ KerasLSTMBaseEstimator_lookahead self = 1.
Proof.
  unfold KerasLSTMBaseEstimator_lookahead. destruct (class_ self); auto.
Qed.

(** A window that ends before the last row of the padded array is a window
    of the array itself. *)
Lemma window_of_padded (X X' : ndarray) (L r : Z) :
  (forall q : nat, (q + 1 < length X')%nat -> X' !! q = X !! q) ->
  0 <= L <= r -> r <= len X' - 1 ->
  py_slice X' (r - L) r
  = take (Z.to_nat L) (drop (Z.to_nat (r - L)) X).
Proof.
  intros HX' HL Hr. rewrite py_slice_in_range by lia.
  replace (r - (r - L)) with L by lia.
  apply list_eq. intros q.
  destruct (decide (q < Z.to_nat L)%nat) as [Hq|Hq].
  - rewrite !lookup_take_lt, !lookup_drop by done.
    apply HX'. unfold len in *. lia.
  - by rewrite !lookup_take_ge by lia.
Qed.

(** ** Lookahead alignment *)

(** C4. Through the default generator, for tables of [n] rows each, a
    lookback window of at least one row and a lookahead that is not
    negative. With lookahead 1, [X] and [y] go to the Keras generator as
    they are. When the window and the lookahead do not fit in the [n] rows,
    no generator is built; and a generator with a batch size that is not
    positive returns no window. Otherwise the generator is built and has at
    least one batch; every batch index below its length returns a batch,
    which holds [batch_size] windows, or those that are left of the
    [n - lookback_window - lookahead + 1] windows in all; every window is
    made of [lookback_window] consecutive rows of [X], the last of them at a
    position [last] of [X], and is paired with the row of [y] at position
    [last + lookahead]: the same position for lookahead 0, [k] rows later
    for lookahead [k]. With lookahead 1 the target is that row of [y] as it
    is; with another lookahead it is that row converted to the dtype of
    [X], as [pad_sequences] leaves it. *)
Theorem lookahead_alignment (X y : Table) batch_size lookback_window
    lookahead :
  Table_len X = Table_len y -> 1 <= lookback_window -> 0 <= lookahead ->
  (lookahead = 1 ->
   create_keras_timeseriesgenerator X y batch_size lookback_window lookahead
     None
   = Default <$> TimeseriesGenerator_init (Table_values X) (Table_values y)
                   lookback_window batch_size false) /\
  (Table_len X < lookback_window + lookahead ->
   exists m,
     create_keras_timeseriesgenerator X y batch_size lookback_window lookahead
       None = Raise (ValueError m)) /\
  (batch_size <= 0 ->
   forall g b samples targets,
     create_keras_timeseriesgenerator X y batch_size lookback_window lookahead
       None = Ok (Default g) ->
     Sequence_getitem (Default g) b = Ok (samples, targets) ->
     samples = []) /\
  (lookback_window + lookahead <= Table_len X -> 0 < batch_size ->
   exists g n,
    create_keras_timeseriesgenerator X y batch_size lookback_window lookahead
      None = Ok (Default g) /\
    Sequence_len (Default g) = Ok n /\
    n = (Table_len X - lookback_window - lookahead + batch_size)
        / batch_size /\
    1 <= n /\
    forall b, 0 <= b < n ->
      exists samples targets,
        Sequence_getitem (Default g) b = Ok (samples, targets) /\
        length samples = length targets /\
        Z.of_nat (length samples)
        = Z.min batch_size
            (Table_len X - lookback_window - lookahead + 1 - batch_size * b) /\
        (0 < length samples)%nat /\
        forall (j : nat) window target,
          samples !! j = Some window -> targets !! j = Some target ->
          let last := lookback_window + batch_size * b + Z.of_nat j - 1 in
          0 <= last + 1 - lookback_window /\
          last + lookahead < Table_len X /\
          window = take (Z.to_nat lookback_window)
                     (drop (Z.to_nat (last + 1 - lookback_window))
                        (Table_values X)) /\
          len window = lookback_window /\
          (lookahead = 1 ->
           Table_values y !! Z.to_nat (last + 1) = Some target) /\
          (lookahead <> 1 ->
           asarray (Table_values y) (dtype_of (Table_values X))
             !! Z.to_nat (last + lookahead) = Some target)).
Proof.
  intros Hlen HL Hk. split; [|split; [|split]].
  { intros ->. rewrite create_keras_timeseriesgenerator_default.
    unfold pad_x_and_y. reflexivity. }
  { intros Hshort. rewrite create_keras_timeseriesgenerator_default.
    rewrite Table_len_values in *.
    destruct (pad_x_and_y _ _ _) as [[X' y']|e] eqn:Epad; simpl.
    - pose proof (pad_x_and_y_len_data _ _ _ _ _ Epad) as HX'.
      unfold TimeseriesGenerator_init.
      destruct (negb (len X' =? len y')); simpl; [by eexists|].
      destruct (0 + lookback_window >? len X' - 1) eqn:E1; simpl;
        [by eexists|].
      lia.
    - apply pad_x_and_y_Raise in Epad as [m ->]. by eexists. }
  { intros Hbs g b samples targets Hc.
    rewrite create_keras_timeseriesgenerator_default in Hc.
    destruct (pad_x_and_y _ _ _) as [[X' y']|e]; simpl in Hc; [|done].
    destruct (TimeseriesGenerator_init _ _ _ _ _) as [g'|] eqn:Eg;
      simpl in Hc; [|done].
    injection Hc as ->.
    apply TimeseriesGenerator_init_Ok in Eg as (_ & _ & Hgb & Hgs & _).
    simpl. unfold TimeseriesGenerator_getitem. rewrite Hgs, Hgb. simpl.
    replace (arange _ _) with (@nil Z).
    - simpl. by intros [= <- _].
    - unfold arange.
      by replace (Z.to_nat _) with 0%nat by lia. }
  intros Hfit Hbs.
  destruct (default_generator_built X y batch_size lookback_window lookahead)
    as (g & X' & y' & Hpad & Hc & Hwf & HgL & Hgb & Hgs & Hgd & Hgt & HlenX');
    [done|lia|done|done|].
  pose proof Hwf as (Hs & _ & He & _).
  set (n := (Table_len X - lookback_window - lookahead + batch_size)
            / batch_size).
  assert (Hn1 : 1 <= n) by (apply Z.div_le_lower_bound; lia).
  assert (Hmul : batch_size * n
                 <= Table_len X - lookback_window - lookahead + batch_size)
    by (apply Z.mul_div_le; lia).
  assert (Hpl : py_len g = Ok n).
  { unfold py_len, TimeseriesGenerator_len__. rewrite Hgb.
    destruct (batch_size =? 0) eqn:E0; [lia|]. simpl.
    rewrite He, Hs, HgL, Hgd, HlenX'.
    replace (Table_len X + 1 - lookahead - 1 - lookback_window + batch_size)
      with (Table_len X - lookback_window - lookahead + batch_size) by lia.
    fold n. destruct (n <? 0) eqn:En; [lia|done]. }
  exists g, n. split; [exact Hc|]. split; [exact Hpl|]. split; [reflexivity|].
  split; [exact Hn1|]. clearbody n. clear Hc.
  rewrite !Table_len_values in *.
  destruct (pad_x_and_y_aligned _ _ _ _ _ Hlen Hk Hpad) as (Hl' & HX' & Hy').
  intros b Hb.
  assert (Hbn : batch_size * b <= batch_size * (n - 1))
    by (apply Z.mul_le_mono_nonneg_l; lia).
  destruct (TimeseriesGenerator_getitem_batch g n b)
    as (samples & targets & Hget & Hst & _ & Hall); [done|lia|done..|].
  destruct (TimeseriesGenerator_getitem_samples g n b)
    as (targets' & Hget' & _); [done|lia|done..|].
  rewrite Hget in Hget'. injection Hget' as Hsamples _.
  assert (Hcount : Z.of_nat (length samples)
                   = Z.min batch_size
                       (len (Table_values X) - lookback_window - lookahead + 1
                        - batch_size * b)).
  { rewrite Hsamples, length_fmap, length_arange.
    rewrite He, Hs, HgL, Hgb, Hgd, HlenX'. lia. }
  exists samples, targets. simpl.
  split; [done|]. split; [done|]. split; [done|]. split; [lia|].
  intros j window target Hw Ht.
  destruct (Hall j window target Hw Ht) as (Hr & Hwin & Htar).
  rewrite HgL, Hgb, Hgd, Hgt, He, HlenX' in *. clear Hall.
  set (r := lookback_window + batch_size * b + Z.of_nat j) in *.
  assert (Hr1 : (Z.to_nat (r - 1) + 1 < length X')%nat)
    by (unfold len in *; lia).
  destruct (HX' (Z.to_nat (r - 1)) Hr1) as [_ HrX].
  cbv zeta. replace (r - 1 + 1 - lookback_window) with (r - lookback_window)
    by lia.
  assert (Htar' : (if lookahead =? 1 then Table_values y
                   else asarray (Table_values y) (dtype_of (Table_values X)))
                    !! Z.to_nat (r - 1 + lookahead) = Some target).
  { rewrite <- Htar.
    replace (Z.to_nat r) with (Z.to_nat (r - 1) + 1)%nat by lia.
    rewrite Hy' by (unfold len in *; lia). f_equal. lia. }
  split_and!.
  - lia.
  - lia.
  - rewrite Hwin. apply list_eq. intros q.
    destruct (decide (q < Z.to_nat lookback_window)%nat) as [Hq|Hq].
    + rewrite !lookup_take_lt, !lookup_drop by done.
      apply HX'. lia.
    + by rewrite !lookup_take_ge by lia.
  - rewrite Hwin. unfold len in *.
    rewrite length_take, length_drop. lia.
  - intros ->. by replace (r - 1 + 1) with (r - 1 + 1) by lia.
  - intros Hne. destruct (lookahead =? 1) eqn:E1; [lia|done].
Qed.

(** [predict] on an array longer than the lookback window, without
    configuration of the generator. *)
Lemma predict_array self a :
  timeseries_generator self = None ->
  0 <= lookback_window self -> lookback_window self < array_len a ->
  exists X' y',
    pad_x_and_y (array_rows a) (array_rows a)
      (KerasLSTMBaseEstimator_lookahead self) = Ok (X', y') /\
    len X' = array_len a + 1 - KerasLSTMBaseEstimator_lookahead self /\
    predict self (XArray a)
    = Ok (network
            <$> ((fun row => py_slice X' (row - lookback_window self) row)
                   <$> arange (lookback_window self)
                         (array_len a + 1
                          - KerasLSTMBaseEstimator_lookahead self))).
Proof.
  intros Hcfg HL0 HL. unfold predict.
  rewrite validate_and_fix_size_of_X_Ok by done. simpl. rewrite Hcfg.
  destruct (default_generator_built (NdArray (array_rows a))
              (NdArray (array_rows a)) 10000 (lookback_window self)
              (KerasLSTMBaseEstimator_lookahead self))
    as (g & X' & y' & Hpad & -> & Hwf & HgL & Hgb & Hgs & Hgd & Hgt & HX').
  { done. }
  { done. }
  { destruct (KerasLSTMBaseEstimator_lookahead_range self) as [-> | ->]; lia. }
  { simpl. rewrite <- array_len_rows.
    destruct (KerasLSTMBaseEstimator_lookahead_range self) as [-> | ->]; lia. }
  simpl in *. rewrite <- array_len_rows in HX'.
  exists X', y'. split; [done|]. split; [done|].
  rewrite predict_generator_Default; [|done|lia|lia|done].
  destruct Hwf as (Hs & _ & He & _).
  rewrite Hs, He, HgL, Hgd, HX'. do 4 f_equal. lia.
Qed.

(** X12. [predict] on an array with more rows than the lookback window,
    with the default generator: one output row for every window of
    [lookback_window] consecutive rows of [X] that the generator makes, in
    order; there are [len(X) - lookback_window + 1 - lookahead] of them, one
    fewer for the forecast than for the autoencoder. *)
Theorem predict_windows self a :
  timeseries_generator self = None ->
  0 <= lookback_window self -> lookback_window self < array_len a ->
  predict self (XArray a)
  = Ok ((fun w => network (take (Z.to_nat (lookback_window self))
                             (drop w (array_rows a))))
          <$> seq 0 (Z.to_nat (array_len a - lookback_window self + 1
                               - KerasLSTMBaseEstimator_lookahead self))).
Proof.
  intros Hcfg HL0 HL.
  destruct (predict_array self a Hcfg HL0 HL) as (X' & y' & Hpad & HX' & ->).
  assert (Hk : 0 <= KerasLSTMBaseEstimator_lookahead self <= 1)
    by (destruct (KerasLSTMBaseEstimator_lookahead_range self) as [-> | ->]; lia).
  destruct (pad_x_and_y_aligned _ _ _ _ _ eq_refl (proj1 Hk) Hpad)
    as (_ & Hal & _).
  f_equal. unfold arange. rewrite <- !list_fmap_compose.
  replace (array_len a + 1 - KerasLSTMBaseEstimator_lookahead self
           - lookback_window self)
    with (array_len a - lookback_window self + 1
          - KerasLSTMBaseEstimator_lookahead self) by lia.
  apply list_fmap_ext. intros j w Hw. simpl.
  apply lookup_seq in Hw as [-> Hw]. simpl. f_equal.
  rewrite (window_of_padded (array_rows a)); [|intros q Hq; by apply Hal|lia|lia].
  do 2 f_equal. lia.
Qed.

(** X13. [determine_offset] on an LSTM estimator with the default generator
    and an array with more rows than the lookback window: the output is
    [lookback_window + lookahead - 1] rows shorter than the input. *)
Theorem determine_offset_lstm self a model_transform :
  timeseries_generator self = None ->
  0 <= lookback_window self -> lookback_window self < array_len a ->
  determine_offset (Some (predict self)) model_transform (XArray a)
  = Ok (lookback_window self + KerasLSTMBaseEstimator_lookahead self - 1).
Proof.
  intros Hcfg HL0 HL. unfold determine_offset.
  destruct (predict_array self a Hcfg HL0 HL) as (X' & y' & _ & _ & ->).
  simpl. f_equal. unfold len. rewrite !length_fmap, length_arange.
  destruct (KerasLSTMBaseEstimator_lookahead_range self) as [-> | ->]; lia.
Qed.

Lemma Table_values_slice_from (t : Table) (start : Z) :
  Table_values (Table_slice_from t start)
  = py_slice_from (Table_values t) start.
Proof.
  destruct t as [df|rows]; simpl; [|done].
  unfold values, py_slice_from, py_slice, len.
  by rewrite fmap_take, fmap_drop, length_fmap.
Qed.


(** X14. [score] on a fitted LSTM estimator with the default generator, an
    array [X] with more rows than the lookback window (of at least one row)
    and targets of as many rows: the rows of [y] that are compared with the
    predictions are those from position [lookback_window + lookahead - 1] on,
    as many as predictions, so that the prediction of each window meets the
    row of [y] at [lookahead] rows after the last row of the window. Without
    a model, [score] raises [NotFittedError] before anything else. *)
Theorem score_targets self a (y : Table) :
  timeseries_generator self = None ->
  1 <= lookback_window self -> lookback_window self < array_len a ->
  Table_len y = array_len a ->
  score self false (XArray a) y = NotFittedError /\
  exists t out,
    score self true (XArray a) y = Fitted (Ok (t, out)) /\
    predict self (XArray a) = Ok out /\
    Table_values t
    = drop (Z.to_nat (lookback_window self
                      + KerasLSTMBaseEstimator_lookahead self - 1))
        (Table_values y) /\
    len (Table_values t) = len out.
Proof.
  intros Hcfg HL1 HL Hy. split; [done|]. unfold score. simpl.
  destruct (predict_array self a Hcfg ltac:(lia) HL) as (X' & y' & _ & _ & Hp).
  rewrite Hp. simpl. eexists _, _. split; [done|]. split; [done|].
  rewrite Table_values_slice_from. rewrite Table_len_values in Hy.
  assert (Hk : 0 <= KerasLSTMBaseEstimator_lookahead self <= 1)
    by (destruct (KerasLSTMBaseEstimator_lookahead_range self) as [-> | ->]; lia).
  assert (Hout : len (network
            <$> ((fun row => py_slice X' (row - lookback_window self) row)
                   <$> arange (lookback_window self)
                         (array_len a + 1
                          - KerasLSTMBaseEstimator_lookahead self)))
          = array_len a + 1 - KerasLSTMBaseEstimator_lookahead self
            - lookback_window self).
  { unfold len. rewrite !length_fmap, length_arange. lia. }
  rewrite Hout. rewrite py_slice_from_last by lia. split.
  - f_equal. lia.
  - rewrite len_drop by lia. lia.
Qed.



(** ** utils.py *)

(** X16. The metric that [metric_wrapper] returns compares the predictions
    (scaled, when a scaler is given) with the last rows of the scaled true
    values, as many as there are predictions; but with all the true values
    when there are no predictions ([y_true[-0:]] is all of [y_true]) and
    when there are more predictions than true values. *)
Theorem metric_wrapper_slice {M Args} (metric : ndarray -> ndarray -> Args -> M)
    (scaler : option (ndarray -> ndarray)) (y_true y_pred : ndarray)
    (args : Args) :
  let y_true' := default id scaler y_true in
  let y_pred' := default id scaler y_pred in
  (0 < len y_pred' <= len y_true' ->
   metric_wrapper metric scaler y_true y_pred args
   = metric (drop (Z.to_nat (len y_true' - len y_pred')) y_true') y_pred'
       args) /\
  (len y_pred' = 0 \/ len y_true' <= len y_pred' ->
   metric_wrapper metric scaler y_true y_pred args
   = metric y_true' y_pred' args).
Proof.
  assert (Hw : metric_wrapper metric scaler y_true y_pred args
               = metric (py_slice_from (default id scaler y_true)
                           (- len (default id scaler y_pred)))
                   (default id scaler y_pred) args)
    by (by destruct scaler).
  intros y_true' y_pred'. fold y_true' y_pred' in Hw. rewrite Hw. split.
  - intros Hlen. by rewrite py_slice_from_last.
  - intros [H0|Hlen].
    + rewrite H0. change (- 0) with 0. by rewrite py_slice_from_zero.
    + by rewrite py_slice_from_all.
Qed.

Lemma py_index_penultimate {A} (l : list A) (x y : A) :
  py_index (l ++ [x; y]) (-2) = Ok x.
Proof.
  unfold py_index. rewrite len_app.
  change (len [x; y]) with 2. pose proof (len_nonneg l) as Hl.
  replace (Z.to_nat (if -2 <? 0 then -2 + (len l + 2) else -2))
    with (length l + 0)%nat by (unfold len in *; simpl; lia).
  rewrite lookup_app_r by lia.
  replace (length l + 0 - length l)%nat with 0%nat by lia. simpl.
  destruct (-2 <? - (len l + 2)) eqn:E; [lia|done].
Qed.

Lemma py_index_penultimate_short {A} (l : list A) :
  (length l < 2)%nat ->
  py_index l (-2) = Raise (IndexError (RowOutOfBounds (-2) (len l))).
Proof.
  intros Hl. destruct l as [|x [|y l]]; [done|done|simpl in Hl; lia].
Qed.

Lemma extract_metadata_from_model_Pipeline {V}
    (steps : list (string * estimator V)) (metadata : gmap string V) :
  extract_metadata_from_model (Pipeline steps) metadata
  = (final_step ← py_index
       ((fun step : string * estimator V =>
           extract_metadata_from_model step.2 ∅) <$> steps) (-2);
     found ← final_step;
     Ok (dict_update metadata found)).
Proof. done. Qed.

Lemma dict_update_empty {V} (d : gmap string V) : dict_update ∅ d = d.
Proof. unfold dict_update. apply (right_id_L ∅ (∪)). Qed.

Lemma dict_update_base {V} (d : gmap string V) : dict_update d ∅ = d.
Proof. unfold dict_update. apply (left_id_L ∅ (∪)). Qed.

Lemma dict_update_assoc {V} (d a b : gmap string V) :
  dict_update (dict_update d a) b = dict_update d (dict_update a b).
Proof. unfold dict_update. apply (assoc_L (∪)). Qed.

Lemma for_each_update_base {V} (l : list (result (gmap string V)))
    (d a : gmap string V) :
  for_each (fun metadata (found : result (gmap string V)) =>
              found ← found; Ok (dict_update metadata found)) l
    (dict_update d a)
  = dict_update d
      <$> for_each (fun metadata (found : result (gmap string V)) =>
                      found ← found; Ok (dict_update metadata found)) l a.
Proof.
  revert a. induction l as [|[found|e] l IH]; intros a; [done| |done].
  cbn [for_each]. change (Ok found ≫= ?f) with (f found). cbv beta.
  change (Ok ?x ≫= ?f) with (f x). cbv beta.
  rewrite dict_update_assoc. apply IH.
Qed.

(** X17. [extract_metadata_from_model] on a [Pipeline] takes the metadata
    from the step before the last one ([steps[-2]]), whatever the last step
    and the steps before are, and lays it over the metadata given; on a
    pipeline of fewer than two steps it raises [IndexError]. *)
Theorem extract_metadata_pipeline {V} (steps : list (string * estimator V))
    (metadata : gmap string V) :
  ((length steps < 2)%nat ->
   extract_metadata_from_model (Pipeline steps) metadata
   = Raise (IndexError (RowOutOfBounds (-2) (len steps)))) /\
  (forall front step last, steps = front ++ [step; last] ->
   extract_metadata_from_model (Pipeline steps) metadata
   = dict_update metadata <$> extract_metadata_from_model step.2 ∅).
Proof.
  rewrite extract_metadata_from_model_Pipeline. split.
  - intros Hl. rewrite py_index_penultimate_short by by rewrite length_fmap.
    unfold len. by rewrite length_fmap.
  - intros front step last ->. rewrite fmap_app. cbn [fmap list_fmap].
    rewrite py_index_penultimate.
    by destruct (extract_metadata_from_model step.2 ∅).
Qed.

(** X18. The metadata given to [extract_metadata_from_model] is only a
    base: the result is what the model gives from empty metadata, laid over
    it (the keys found in the model win), and the call raises when the call
    from empty metadata does. *)
Theorem extract_metadata_base {V} (model : estimator V)
    (metadata : gmap string V) :
  extract_metadata_from_model model metadata
  = dict_update metadata <$> extract_metadata_from_model model ∅.
Proof.
  destruct model as [steps|own dict_values].
  - rewrite !extract_metadata_from_model_Pipeline.
    destruct (py_index _ _) as [[found|e]|e]; [|done|done].
    cbn. by rewrite dict_update_empty.
  - cbn [extract_metadata_from_model].
    match goal with
    | |- for_each ?f ?l _ = _ <$> for_each _ _ _ => generalize l
    end. intros l.
    destruct own as [own|].
    + rewrite dict_update_empty. apply for_each_update_base.
    + rewrite <- (dict_update_base metadata) at 1. apply for_each_update_base.
Qed.

(** X19. On an estimator that is no pipeline, the loop over the values of
    [__dict__] adds, for each value in order, the metadata that
    [extract_metadata_from_model] gives for that value alone: the branch of
    the loop for a pipeline does what the call on the pipeline does. *)
Theorem extract_metadata_attributes {V} (own : option (gmap string V))
    (dict_values : list (estimator V)) (metadata : gmap string V) :
  extract_metadata_from_model (Estimator own dict_values) metadata
  = for_each
      (fun metadata (found : result (gmap string V)) =>
         found ← found; Ok (dict_update metadata found))
      ((fun val => extract_metadata_from_model val ∅) <$> dict_values)
      (match own with
       | Some own => dict_update metadata own
       | None => metadata
       end).
Proof.
  cbn [extract_metadata_from_model]. f_equal.
  apply list_fmap_ext. intros _ [steps|own' vals] _; [|done].
  rewrite extract_metadata_from_model_Pipeline.
  destruct (py_index _ _) as [[found|e]|e]; [|done|done].
  cbn. by rewrite dict_update_empty.
Qed.

(** ** The Gordo generator on a frame without gaps *)

Lemma loc_slice_all (df : list (Timestamp * row)) (a b : Timestamp) :
  Forall (fun t => a <= t <= b) (index df) -> loc_slice df a b = df.
Proof.
  unfold loc_slice, index. induction df as [|r df IH]; [done|].
  rewrite fmap_cons. intros [Hr Hdf]%Forall_cons.
  rewrite filter_cons_True by done. f_equal. by apply IH.
Qed.

Lemma regular_index_bounds (t0 : Timestamp) (step : Timedelta) (n : nat) :
  0 <= step ->
  Forall (fun t => t0 <= t <= t0 + step * Z.of_nat n)
    (regular_index t0 step (S n)).
Proof.
  intros Hstep. unfold regular_index. apply Forall_fmap, Forall_seq.
  intros j Hj. simpl. nia.
Qed.

Lemma len_index (df : list (Timestamp * row)) : len (index df) = len df.
Proof. unfold len, index. by rewrite length_fmap. Qed.

(** X20. On data whose index has no gap (it starts at [t0] and goes by
    [step >= 0] for [n + 1] rows) and targets of the same index,
    [GordoTimeseriesGenerator] is the Keras generator on all the rows: when
    Keras builds one, there is one chunk, none failed, and the Gordo
    generator has its length and returns its batches, with [IndexError]
    from the length on; when Keras refuses the rows, the constructor raises
    the [ValueError] that names the chunk. *)
Theorem gordo_generator_gap_free (data targets : list (Timestamp * row))
    (window batch_size : Z) (shuffle : bool) (step : Timedelta)
    (lookahead : Z) (t0 : Timestamp) (n : nat) :
  0 <= step -> index data = regular_index t0 step (S n) ->
  index targets = index data ->
  let c := mkChunk t0 (t0 + step * Z.of_nat n) (Z.of_nat (S n)) in
  (forall e,
     TimeseriesGenerator_init (values data) (values targets) window
       batch_size shuffle = Raise e ->
     GordoTimeseriesGenerator_init (DataFrame data) (DataFrame targets)
       window batch_size shuffle step lookahead
     = Raise (ValueError (TooSmallOrRandomOrder [c]))) /\
  (forall tg m,
     TimeseriesGenerator_init (values data) (values targets) window
       batch_size shuffle = Ok tg ->
     py_len tg = Ok m ->
     exists g,
       GordoTimeseriesGenerator_init (DataFrame data) (DataFrame targets)
         window batch_size shuffle step lookahead = Ok g /\
       consecutive_chunks g = [c] /\ failed_chunks g = [] /\
       GordoTimeseriesGenerator_len g = m /\
       (forall i, i < m ->
          GordoTimeseriesGenerator_getitem g i
          = TimeseriesGenerator_getitem tg i) /\
       (forall i, m <= i ->
          GordoTimeseriesGenerator_getitem g i
          = Raise (IndexError (GlobalIndex i)))).
Proof.
  intros Hstep Hdata Htargets c.
  assert (Hchunks : find_consecutive_chunks step data = [c]).
  { rewrite find_consecutive_chunks_scan, Hdata, chunk_scan_of_regular.
    simpl. unfold c. do 2 f_equal. rewrite len_regular_index. lia. }
  assert (Hlen : len data = len targets).
  { by rewrite <- (len_index data), <- (len_index targets), Htargets. }
  assert (Hd : loc_slice data (start_ts c) (end_ts c) = data).
  { apply loc_slice_all. rewrite Hdata. by apply regular_index_bounds. }
  assert (Ht : loc_slice targets (start_ts c) (end_ts c) = targets).
  { apply loc_slice_all. rewrite Htargets, Hdata.
    by apply regular_index_bounds. }
  assert (Hinit : forall r,
            TimeseriesGenerator_init (values data) (values targets) window
              batch_size shuffle = r ->
            create_generator_containers [c] data targets window batch_size
              shuffle
            = match r with
              | Ok tg =>
                  m ← py_len tg;
                  Ok (mkContainersScan m [] [mkContainer tg c m])
              | Raise e => Ok (mkContainersScan window [c] [])
              end).
  { intros r Hr. unfold create_generator_containers. cbn [for_each].
    unfold create_generator_containers_step. rewrite Hd, Ht.
    cbn [cs_length cs_failed_chunks cs_generator_containers]. rewrite Hr.
    destruct r as [tg|e].
    - by destruct (py_len tg).
    - unfold TimeseriesGenerator_init in Hr.
      destruct (negb _); [by injection Hr as <-|].
      destruct (_ >? _); [by injection Hr as <-|done]. }
  unfold GordoTimeseriesGenerator_init.
  destruct (len data =? len targets) eqn:E; [|lia]. cbn [negb].
  rewrite Hchunks. split.
  - intros e He. by rewrite (Hinit _ He).
  - intros tg m Htg Hm. rewrite (Hinit _ Htg), Hm. cbn.
    eexists. split; [done|]. cbn. split_and!; try done.
    + unfold GordoTimeseriesGenerator_len. cbn. lia.
    + intros i Hi. unfold GordoTimeseriesGenerator_getitem. cbn.
      destruct (i <=? -1 + m) eqn:E1; [|lia]. cbn. f_equal. lia.
    + intros i Hi. unfold GordoTimeseriesGenerator_getitem. cbn.
      destruct (i <=? -1 + m) eqn:E1; [lia|done].
Qed.

Lemma create_generator_containers_all_short data targets batch_size shuffle
    chunks :
  forall st,
    Forall (fun c => len (loc_slice data (start_ts c) (end_ts c))
                     <= cs_length st) chunks ->
    for_each (create_generator_containers_step data targets batch_size shuffle)
      chunks st
    = Ok (mkContainersScan (cs_length st) (cs_failed_chunks st ++ chunks)
            (cs_generator_containers st)).
Proof.
  induction chunks as [|c chunks IH]; intros st Hall.
  - cbn. rewrite app_nil_r. by destruct st.
  - apply Forall_cons in Hall as [Hc Hall]. cbn [for_each].
    rewrite create_generator_containers_step_short by done.
    change (Ok ?x ≫= ?f) with (f x). cbv beta.
    rewrite IH by done. cbn. by rewrite <- app_assoc.
Qed.

(** X21. On data and targets whose indexes increase (where the label
    slices of pandas are the rows that [loc_slice] keeps): when no chunk of
    the data has more rows than the window length, the constructor of
    [GordoTimeseriesGenerator] raises the [ValueError] that names all the
    chunks found: every chunk fails, and no generator is left. *)
Theorem init_rejects_short_chunks (data targets : list (Timestamp * row))
    (window batch_size : Z) (shuffle : bool) (step : Timedelta)
    (lookahead : Z) :
  monotonic_increasing (index data) = true ->
  monotonic_increasing (index targets) = true ->
  len data = len targets ->
  Forall (fun c => len (loc_slice data (start_ts c) (end_ts c)) <= window)
    (find_consecutive_chunks step data) ->
  GordoTimeseriesGenerator_init (DataFrame data) (DataFrame targets) window
    batch_size shuffle step lookahead
  = Raise (ValueError
             (TooSmallOrRandomOrder (find_consecutive_chunks step data))).
Proof.
  intros _ _ Hlen Hall. unfold GordoTimeseriesGenerator_init.
  destruct (len data =? len targets) eqn:E; [|lia]. cbn [negb].
  unfold create_generator_containers.
  by rewrite create_generator_containers_all_short.
Qed.

End Windowing.

Arguments DataFrame {F} rows.
Arguments NdArray {F} rows.
Arguments PyNone {F}.
Arguments PyBool {F} b.
Arguments PyInt {F} z.
Arguments PyStr {F} s.
Arguments PyTimedelta {F} d.
Arguments PyTable {F} t.
Arguments Array1 {F} xs.
Arguments Array2 {F} rows.
Arguments XArray {F} a.
Arguments XFrame {F} df.
Arguments Default {F} g.
Arguments Gordo {F} g.
Arguments mkEstimator {F} _ _ _ _.
Arguments mkTypes F {T} _ _.
Arguments default_type F {T} _ _.
Arguments _types F {T} _.
Arguments Windowing {F} X y _ _ _.
Arguments PrimerFit {F} primer.
Arguments FitGenerator {F} tsg.
Arguments randint_in_range randint : clear implicits.
Arguments NotFittedError {T}.
Arguments Fitted {T} r.
Arguments Pipeline {V} steps.
Arguments Estimator {V} get_metadata dict_values.

(** * The properties on concrete tables *)

Lemma lowest_row_in_range : randint_in_range lowest_row.
Proof.
  intros low high size Hlt. unfold lowest_row.
  apply Forall_replicate. lia.
Qed.

(** ** The chunks *)

(** C2, on the code. Six rows at step 1 with one gap, before the row 10. The
    second chunk starts at 11, the row after the gap, not at the row 10 that
    opened it; its size counts the row 10 all the same, so that the size, 3,
    is not the number of rows between its bounds, 2; and the row 10 lies
    between the bounds of no chunk. When the gap is before the last row, that
    row is in no chunk at all. *)
Theorem find_consecutive_chunks_drops_row_after_gap :
  find_consecutive_chunks Z 1 (frame [0; 1; 2; 10; 11; 12])
    = [mkChunk 0 2 3; mkChunk 11 12 3] /\
  len (loc_slice Z (frame [0; 1; 2; 10; 11; 12]) 11 12) = 2 /\
  Forall (fun c => ~ (start_ts c <= 10 <= end_ts c))
    (find_consecutive_chunks Z 1 (frame [0; 1; 2; 10; 11; 12])) /\
  find_consecutive_chunks Z 1 (frame [0; 1; 2; 10]) = [mkChunk 0 2 3].
Proof.
  split_and!; [reflexivity|reflexivity| |reflexivity].
  repeat constructor; simpl; lia.
Qed.

(** ** The window length of the chunks *)

(** C1, on the code. Two chunks, a window length of 2: the generator of the
    first chunk has the window length 2; the one of the second has the window
    length 1, which is the number of batches of the first generator, assigned
    to the local [length] in the loop. *)
Theorem window_length_overwritten_by_batch_count :
  exists g c1 c2,
    GordoTimeseriesGenerator_init Z
      (DataFrame (frame [0; 1; 2; 3; 4; 10; 11; 12; 13; 14]))
      (DataFrame (frame [0; 1; 2; 3; 4; 10; 11; 12; 13; 14]))
      2 128 false 1 1 = Ok g /\
    generators_containers Z g = [c1; c2] /\
    tg_length Z (generator Z c1) = 2 /\
    length_ Z c1 = 1 /\
    tg_length Z (generator Z c2) = 1.
Proof. do 3 eexists. split_and!; reflexivity. Qed.

(** C6, on the code. The second chunk has two rows, too few for a window of
    the requested length 3: on its rows alone the Keras generator is refused.
    In the loop it is built with the overwritten length 1, so that the chunk
    is not recorded as failed and adds one batch to the global index. *)
Theorem short_chunk_indexed_after_overwrite :
  exists g c1 c2,
    GordoTimeseriesGenerator_init Z
      (DataFrame (frame [0; 1; 2; 3; 4; 10; 11; 12]))
      (DataFrame (frame [0; 1; 2; 3; 4; 10; 11; 12]))
      3 128 false 1 1 = Ok g /\
    consecutive_chunks Z g = [mkChunk 0 4 5; mkChunk 11 12 3] /\
    TimeseriesGenerator_init Z [[11]; [12]] [[11]; [12]] 3 128 false
      = Raise (ValueError (KerasStartIndex 3 1)) /\
    failed_chunks Z g = [] /\
    generators_containers Z g = [c1; c2] /\
    chunk Z c2 = mkChunk 11 12 3 /\
    length_ Z c2 = 1 /\
    GordoTimeseriesGenerator_len Z g = 2.
Proof. do 3 eexists. split_and!; reflexivity. Qed.

(** ** The global index *)

Lemma getitem_global_index_witness :
  exists g,
    GordoTimeseriesGenerator_init Z
      (DataFrame (frame [0; 1; 2; 3; 4; 10; 11; 12; 13; 14]))
      (DataFrame (frame [0; 1; 2; 3; 4; 10; 11; 12; 13; 14]))
      2 1 false 1 1 = Ok g /\
    GordoTimeseriesGenerator_len Z g
      = py_sum (length_ Z <$> generators_containers Z g) /\
    (forall i, 0 <= i < GordoTimeseriesGenerator_len Z g ->
       exists k c,
         generators_containers Z g !! k = Some c /\
         0 <= i - windows_before Z (generators_containers Z g) k
           < length_ Z c /\
         GordoTimeseriesGenerator_getitem Z lowest_row g i
           = TimeseriesGenerator_getitem Z lowest_row (generator Z c)
               (i - windows_before Z (generators_containers Z g) k) /\
         (forall k' c',
            generators_containers Z g !! k' = Some c' ->
            0 <= i - windows_before Z (generators_containers Z g) k'
              < length_ Z c' ->
            k' = k) /\
         is_Ok (GordoTimeseriesGenerator_getitem Z lowest_row g i)) /\
    GordoTimeseriesGenerator_getitem Z lowest_row g
      (GordoTimeseriesGenerator_len Z g)
    = Raise (IndexError (GlobalIndex (GordoTimeseriesGenerator_len Z g))).
Proof.
  destruct (GordoTimeseriesGenerator_init Z
              (DataFrame (frame [0; 1; 2; 3; 4; 10; 11; 12; 13; 14]))
              (DataFrame (frame [0; 1; 2; 3; 4; 10; 11; 12; 13; 14]))
              2 1 false 1 1) as [g|e] eqn:E.
  - exists g. split; [reflexivity|].
    destruct (getitem_global_index Z lowest_row
                (DataFrame (frame [0; 1; 2; 3; 4; 10; 11; 12; 13; 14]))
                (DataFrame (frame [0; 1; 2; 3; 4; 10; 11; 12; 13; 14]))
                2 1 false 1 1 g E) as (H1 & H2 & H3).
    split; [exact H1|]. split; [|exact H3].
    intros i Hi. destruct (H2 i Hi) as (k & c & Hk & Hr & Heq & Huniq & Hok).
    exists k, c. split; [exact Hk|]. split; [exact Hr|]. split; [exact Heq|].
    split; [exact Huniq|].
    apply Hok; [lia|lia|exact lowest_row_in_range].
  - vm_compute in E. discriminate.
Defined.

(** C3, as it is stated, fails. A window length of -5 on three rows: the
    constructor returns a generator of 8 batches; the index 0, which is
    below the length, is sent to the Keras generator, which reads the target
    at row -5 of the three rows: an [IndexError]. *)
Lemma getitem_below_len_raises :
  exists g,
    GordoTimeseriesGenerator_init Z
      (DataFrame (frame [0; 1; 2])) (DataFrame (frame [0; 1; 2]))
      (-5) 1 false 1 1 = Ok g /\
    GordoTimeseriesGenerator_len Z g = 8 /\
    GordoTimeseriesGenerator_getitem Z lowest_row g 0
    = Raise (IndexError (RowOutOfBounds (-5) 3)).
Proof. eexists. split_and!; reflexivity. Qed.

(** C10, as it is stated, fails. A generator over five rows, with windows of
    length 2 and batches of one window: the index -10 is sent to the Keras
    generator of the first chunk, which computes the row 2 - 10 = -8 and
    reads the targets there, below the five rows: an [IndexError]. *)
Lemma getitem_negative_index_raises :
  exists g,
    GordoTimeseriesGenerator_init Z
      (DataFrame (frame [0; 1; 2; 3; 4])) (DataFrame (frame [0; 1; 2; 3; 4]))
      2 1 false 1 1 = Ok g /\
    GordoTimeseriesGenerator_getitem Z lowest_row g (-10)
    = Raise (IndexError (RowOutOfBounds (-8) 5)).
Proof. eexists. split; reflexivity. Qed.

Lemma getitem_negative_index_witness :
  exists g c rest,
    GordoTimeseriesGenerator_init Z
      (DataFrame (frame [0; 1; 2; 3; 4])) (DataFrame (frame [0; 1; 2; 3; 4]))
      2 1 false 1 1 = Ok g /\
    generators_containers Z g = c :: rest /\
    locate Z (generators_containers Z g) (-1) (-1) = Ok (c, -1) /\
    GordoTimeseriesGenerator_getitem Z lowest_row g (-1)
    = TimeseriesGenerator_getitem Z lowest_row (generator Z c) (-1).
Proof.
  destruct (GordoTimeseriesGenerator_init Z
              (DataFrame (frame [0; 1; 2; 3; 4]))
              (DataFrame (frame [0; 1; 2; 3; 4])) 2 1 false 1 1)
    as [g|e] eqn:E.
  - exists g.
    destruct (getitem_negative_index Z lowest_row
                (DataFrame (frame [0; 1; 2; 3; 4]))
                (DataFrame (frame [0; 1; 2; 3; 4])) 2 1 false 1 1 g (-1))
      as (c & rest & H1 & H2 & H3); [lia|exact E|].
    exists c, rest. split_and!; [reflexivity|exact H1|exact H2|exact H3].
  - vm_compute in E. discriminate.
Defined.

(** ** Tables that do not match *)

(** C5, as it is stated, fails. Data every two units and targets at other
    timestamps, five rows each: the constructor returns a generator, whose
    windows pair the data at 2 and 4 with the target of timestamp 2. *)
Lemma init_accepts_different_indexes :
  let data := frame [0; 2; 4; 6; 8] in
  let targets := [(0, [10]); (1, [11]); (2, [12]); (3, [13]); (8, [18])] in
  len data = len targets /\
  index Z data <> index Z targets /\
  monotonic_increasing (index Z data) = true /\
  monotonic_increasing (index Z targets) = true /\
  exists g,
    GordoTimeseriesGenerator_init Z (DataFrame data) (DataFrame targets)
      2 128 false 2 1 = Ok g /\
    GordoTimeseriesGenerator_getitem Z lowest_row g 0
    = Ok ([[[0]; [2]]; [[2]; [4]]; [[4]; [6]]], [[12]; [13]; [18]]).
Proof.
  cbv zeta. split_and!; [reflexivity|discriminate|reflexivity|reflexivity|].
  eexists. split; reflexivity.
Qed.

Lemma init_rejects_different_lengths_witness :
  Table_len Z (DataFrame (frame [0; 1; 2; 3; 4]))
    <> Table_len Z (DataFrame (frame [0; 1; 2; 3])) /\
  (exists m,
     GordoTimeseriesGenerator_init Z (DataFrame (frame [0; 1; 2; 3; 4]))
       (DataFrame (frame [0; 1; 2; 3])) 2 128 false 1 1
     = Raise (ValueError m)) /\
  GordoTimeseriesGenerator_init Z (DataFrame (frame [0; 1; 2; 3; 4]))
    (DataFrame (frame [0; 1; 2; 3])) 2 128 false 1 1
  = Raise (ValueError (DataTargetsLength 5 4)).
Proof.
  assert (H : Table_len Z (DataFrame (frame [0; 1; 2; 3; 4]))
              <> Table_len Z (DataFrame (frame [0; 1; 2; 3])))
    by (vm_compute; discriminate).
  destruct (init_rejects_different_lengths Z
              (DataFrame (frame [0; 1; 2; 3; 4]))
              (DataFrame (frame [0; 1; 2; 3])) 2 128 false 1 1 H)
    as [H1 H2].
  split_and!; [exact H|exact H1|exact (H2 _ _ eq_refl eq_refl)].
Defined.

(** ** Lookahead *)

(** Five rows of dtype [uint8] with targets of dtype [int64], windows of
    two rows and lookahead 0: the targets are the rows of [y] at the last
    position of each window, converted to [uint8] (300 becomes 44). *)
Lemma lookahead_alignment_witness :
  asarray Z dtype_of_ints astype_ints
    (Table_values Z (NdArray [[300]; [301]; [302]; [303]; [304]]))
    (dtype_of_ints (Table_values Z (NdArray [[0]; [1]; [2]; [3]; [4]])))
  = [[44]; [45]; [46]; [47]; [48]] /\
  exists g n,
    create_keras_timeseriesgenerator Z 0 minutes dtype_of_ints astype_ints
      (NdArray [[0]; [1]; [2]; [3]; [4]])
      (NdArray [[300]; [301]; [302]; [303]; [304]]) 2 2 0 None
    = Ok (Default g) /\
    Sequence_len Z (Default g) = Ok n /\
    n = (Table_len Z (NdArray [[0]; [1]; [2]; [3]; [4]]) - 2 - 0 + 2) / 2 /\
    1 <= n /\
    forall b, 0 <= b < n ->
      exists samples targets,
        Sequence_getitem Z lowest_row (Default g) b = Ok (samples, targets) /\
        length samples = length targets /\
        Z.of_nat (length samples)
        = Z.min 2
            (Table_len Z (NdArray [[0]; [1]; [2]; [3]; [4]]) - 2 - 0 + 1
             - 2 * b) /\
        (0 < length samples)%nat /\
        forall (j : nat) window target,
          samples !! j = Some window -> targets !! j = Some target ->
          let last := 2 + 2 * b + Z.of_nat j - 1 in
          0 <= last + 1 - 2 /\
          last + 0 < Table_len Z (NdArray [[0]; [1]; [2]; [3]; [4]]) /\
          window = take (Z.to_nat 2)
                     (drop (Z.to_nat (last + 1 - 2))
                        (Table_values Z (NdArray [[0]; [1]; [2]; [3]; [4]]))) /\
          len window = 2 /\
          (0 = 1 ->
           Table_values Z (NdArray [[300]; [301]; [302]; [303]; [304]])
             !! Z.to_nat (last + 1) = Some target) /\
          (0 <> 1 ->
           asarray Z dtype_of_ints astype_ints
             (Table_values Z (NdArray [[300]; [301]; [302]; [303]; [304]]))
             (dtype_of_ints
                (Table_values Z (NdArray [[0]; [1]; [2]; [3]; [4]])))
             !! Z.to_nat (last + 0) = Some target).
Proof.
  split; [reflexivity|].
  destruct (lookahead_alignment Z 0 lowest_row minutes dtype_of_ints
              astype_ints (NdArray [[0]; [1]; [2]; [3]; [4]])
              (NdArray [[300]; [301]; [302]; [303]; [304]]) 2 2 0)
    as (_ & _ & _ & H); [reflexivity|lia|lia|].
  apply H; [vm_compute; discriminate|lia].
Defined.

(** C8, as it is stated, fails. Configured with the chunk-aware type,
    [create_keras_timeseriesgenerator] returns a generator for the lookahead
    -1, which the constructor only stores. *)
Lemma gordo_generator_accepts_negative_lookahead :
  exists g,
    create_keras_timeseriesgenerator Z 0 minutes dtype_of_ints astype_ints
      (DataFrame (frame [0; 10; 20; 30; 40]))
      (DataFrame (frame [0; 10; 20; 30; 40])) 128 2 (-1)
      (Some {[ "type" := PyStr "GordoTimeseriesGenerator" ]}) = Ok (Gordo g) /\
    lookahead Z g = -1 /\
    consecutive_chunks Z g = [mkChunk 0 40 5].
Proof. eexists. split_and!; reflexivity. Qed.

Lemma default_generator_rejects_negative_lookahead_witness :
  -1 < 0 /\
  create_keras_timeseriesgenerator Z 0 minutes dtype_of_ints astype_ints
    (DataFrame (frame [0; 10; 20; 30; 40]))
    (DataFrame (frame [0; 10; 20; 30; 40])) 128 2 (-1) None
  = Raise (ValueError (NegativeLookahead (-1))).
Proof.
  split; [lia|].
  apply (default_generator_rejects_negative_lookahead Z 0 minutes
           dtype_of_ints astype_ints).
  lia.
Defined.

(** ** [fit] on short inputs *)

(** C7, as it is stated, fails. A frame of three rows and a lookback window
    of three, in the autoencoder: no validation is run on a frame, the padded
    primer holds one window, and [fit] goes through the priming fit, which
    builds the model, and the training. *)
Lemma fit_short_frame_builds_model :
  let self := mkEstimator KerasLSTMAutoEncoder 3 32 None in
  len (frame [0; 1; 2]) <= lookback_window Z self /\
  exists w1 w2 tsg,
    fit Z 0 lowest_row minutes dtype_of_ints astype_ints self
      (XFrame (frame [0; 1; 2])) (DataFrame (frame [0; 1; 2]))
    = ([w1; PrimerFit ([[[0]; [1]; [2]]], [[2]]); w2; FitGenerator tsg], Ok ()).
Proof. cbv zeta. split; [vm_compute; discriminate|]. do 3 eexists. reflexivity. Qed.

Lemma fit_rejects_short_array_witness :
  array_len Z (Array2 [[0]; [1]; [2]])
    <= lookback_window Z (mkEstimator KerasLSTMAutoEncoder 3 32 None) /\
  fit Z 0 lowest_row minutes dtype_of_ints astype_ints
    (mkEstimator KerasLSTMAutoEncoder 3 32 None)
    (XArray (Array2 [[0]; [1]; [2]])) (NdArray [[0]; [1]; [2]])
  = ([], Raise (ValueError LookbackWindowTooLarge)).
Proof.
  split; [vm_compute; discriminate|].
  apply (fit_rejects_short_array Z 0 lowest_row minutes dtype_of_ints
           astype_ints).
  vm_compute. discriminate.
Defined.

(** ** The registry *)

(** The registry of the module is what the two statements of models.py
    build: the constructor of the registry, then the registration of the
    chunk-aware class under its name. *)
Lemma timeseries_generators_registered :
  register Z
    (TimeseriesGeneratorTypes_init Z
       (default_type Z
          (timeseries_generators Z 0 minutes dtype_of_ints astype_ints)))
    "GordoTimeseriesGenerator"
    (fun kwargs => Gordo <$> GordoTimeseriesGenerator_new Z minutes kwargs)
  = Ok (timeseries_generators Z 0 minutes dtype_of_ints astype_ints).
Proof. reflexivity. Qed.

Lemma create_from_config_spec_witness :
  let config : gmap string (pyvalue Z) :=
    {[ "type" := PyStr "GordoTimeseriesGenerator";
       "length" := PyInt 9; "step" := PyStr "1min" ]} in
  let kwargs : gmap string (pyvalue Z) := {[ "length" := PyInt 2 ]} in
  exists all_kwargs : gmap string (pyvalue Z),
    create_from_config Z
      (timeseries_generators Z 0 minutes dtype_of_ints astype_ints)
      (Some config) kwargs
    = Gordo <$> GordoTimeseriesGenerator_new Z minutes all_kwargs /\
    all_kwargs !! "length" = Some (PyInt 2) /\
    all_kwargs !! "step" = Some (PyStr "1min") /\
    all_kwargs !! "type" = None.
Proof.
  cbv zeta.
  destruct (create_from_config_spec Z
              (timeseries_generators Z 0 minutes dtype_of_ints astype_ints)
              {[ "length" := PyInt 2 ]}) as (_ & _ & _ & H).
  destruct (H {[ "type" := PyStr "GordoTimeseriesGenerator";
                 "length" := PyInt 9; "step" := PyStr "1min" ]}
              "GordoTimeseriesGenerator"
              (fun kwargs => Gordo <$> GordoTimeseriesGenerator_new Z minutes kwargs))
    as (all_kwargs & Heq & Hk & Hc & Ht); [reflexivity|reflexivity|].
  exists all_kwargs. split_and!.
  - exact Heq.
  - apply Hk. reflexivity.
  - rewrite Hc; [reflexivity|reflexivity|discriminate].
  - apply Ht. reflexivity.
Defined.

(** ** The chunks of a frame, and the generators over them *)

Lemma find_consecutive_chunks_spacing_witness :
  find_consecutive_chunks Z 1 (frame [0; 1; 2; 10; 11; 12]) !! 1%nat
  = Some (mkChunk 11 12 3) /\
  end_ts (mkChunk 11 12 3)
  = start_ts (mkChunk 11 12 3)
    + 1 * (size (mkChunk 11 12 3)
           - (if decide (1%nat = 0%nat) then 1 else 2)).
Proof.
  split; [reflexivity|].
  apply (find_consecutive_chunks_spacing Z 1 (frame [0; 1; 2; 10; 11; 12])
           1%nat (mkChunk 11 12 3)).
  reflexivity.
Defined.

Lemma filter_chunks_global_index_witness :
  exists g g',
    GordoTimeseriesGenerator_init Z
      (DataFrame (frame [0; 1; 2; 3; 4; 10; 11; 12; 13; 14]))
      (DataFrame (frame [0; 1; 2; 3; 4; 10; 11; 12; 13; 14]))
      2 1 false 1 1 = Ok g /\
    filter_chunks Z g (Some [1]) = Ok g' /\
    Forall (fun c => c ∈ generators_containers Z g)
      (generators_containers Z g') /\
    (forall i, 0 <= i < GordoTimeseriesGenerator_len Z g' ->
       exists k c,
         generators_containers Z g' !! k = Some c /\
         0 <= i - windows_before Z (generators_containers Z g') k
           < length_ Z c /\
         GordoTimeseriesGenerator_getitem Z lowest_row g' i
         = TimeseriesGenerator_getitem Z lowest_row (generator Z c)
             (i - windows_before Z (generators_containers Z g') k)) /\
    (forall i, GordoTimeseriesGenerator_len Z g' <= i ->
       GordoTimeseriesGenerator_getitem Z lowest_row g' i
       = Raise (IndexError (GlobalIndex i))).
Proof.
  destruct (GordoTimeseriesGenerator_init Z
              (DataFrame (frame [0; 1; 2; 3; 4; 10; 11; 12; 13; 14]))
              (DataFrame (frame [0; 1; 2; 3; 4; 10; 11; 12; 13; 14]))
              2 1 false 1 1) as [g|e] eqn:E; [|vm_compute in E; discriminate].
  destruct (filter_chunks Z g (Some [1])) as [g'|e] eqn:E'.
  - exists g, g'. split; [reflexivity|]. split; [exact E'|].
    destruct (filter_chunks_global_index Z lowest_row
                (DataFrame (frame [0; 1; 2; 3; 4; 10; 11; 12; 13; 14]))
                (DataFrame (frame [0; 1; 2; 3; 4; 10; 11; 12; 13; 14]))
                2 1 false 1 1 g (Some [1]) g' E E') as (H1 & H2 & H3 & _).
    split; [exact H1|]. split; [exact H2|exact H3].
  - vm_compute in E. injection E as <-. vm_compute in E'. discriminate.
Defined.

Lemma gordo_generator_gap_free_witness :
  exists tg m g,
    TimeseriesGenerator_init Z (values Z (frame [0; 1; 2; 3; 4]))
      (values Z (frame [0; 1; 2; 3; 4])) 2 2 false = Ok tg /\
    py_len Z tg = Ok m /\
    GordoTimeseriesGenerator_init Z (DataFrame (frame [0; 1; 2; 3; 4]))
      (DataFrame (frame [0; 1; 2; 3; 4])) 2 2 false 1 1 = Ok g /\
    consecutive_chunks Z g = [mkChunk 0 4 5] /\
    failed_chunks Z g = [] /\
    GordoTimeseriesGenerator_len Z g = m /\
    (forall i, i < m ->
       GordoTimeseriesGenerator_getitem Z lowest_row g i
       = TimeseriesGenerator_getitem Z lowest_row tg i) /\
    (forall i, m <= i ->
       GordoTimeseriesGenerator_getitem Z lowest_row g i
       = Raise (IndexError (GlobalIndex i))).
Proof.
  destruct (TimeseriesGenerator_init Z (values Z (frame [0; 1; 2; 3; 4]))
              (values Z (frame [0; 1; 2; 3; 4])) 2 2 false)
    as [tg|e] eqn:E; [|vm_compute in E; discriminate].
  destruct (py_len Z tg) as [m|e] eqn:Em.
  - destruct (gordo_generator_gap_free Z lowest_row (frame [0; 1; 2; 3; 4])
                (frame [0; 1; 2; 3; 4]) 2 2 false 1 1 0 4%nat)
      as [_ H]; [lia|reflexivity|reflexivity|].
    destruct (H tg m E Em) as (g & H1 & H2 & H3 & H4 & H5 & H6).
    exists tg, m, g.
    split; [reflexivity|]. split; [exact Em|]. split; [exact H1|].
    split; [exact H2|]. split; [exact H3|]. split; [exact H4|].
    split; [exact H5|exact H6].
  - vm_compute in E. injection E as <-. vm_compute in Em. discriminate.
Defined.

Lemma init_rejects_short_chunks_witness :
  monotonic_increasing (index Z (frame [0; 1; 2])) = true /\
  find_consecutive_chunks Z 1 (frame [0; 1; 2]) = [mkChunk 0 2 3] /\
  GordoTimeseriesGenerator_init Z (DataFrame (frame [0; 1; 2]))
    (DataFrame (frame [0; 1; 2])) 3 128 false 1 1
  = Raise (ValueError
             (TooSmallOrRandomOrder
                (find_consecutive_chunks Z 1 (frame [0; 1; 2])))).
Proof.
  split; [reflexivity|]. split; [reflexivity|].
  apply (init_rejects_short_chunks Z (frame [0; 1; 2]) (frame [0; 1; 2])
           3 128 false 1 1); [reflexivity|reflexivity|reflexivity|].
  change (find_consecutive_chunks Z 1 (frame [0; 1; 2]))
    with [mkChunk 0 2 3].
  repeat constructor. vm_compute. discriminate.
Defined.

(** ** The registry, after a registration *)

Lemma register_then_create_witness :
  register Z
    (TimeseriesGeneratorTypes_init Z
       (default_type Z
          (timeseries_generators Z 0 minutes dtype_of_ints astype_ints)))
    "GordoTimeseriesGenerator"
    (fun kwargs => Gordo <$> GordoTimeseriesGenerator_new Z minutes kwargs)
  = Ok (timeseries_generators Z 0 minutes dtype_of_ints astype_ints) /\
  (forall config kwargs : gmap string (pyvalue Z),
     config !! "type" = Some (PyStr "GordoTimeseriesGenerator") ->
     create_from_config Z
       (timeseries_generators Z 0 minutes dtype_of_ints astype_ints)
       (Some config) kwargs
     = Gordo <$> GordoTimeseriesGenerator_new Z minutes
                   (dict_update (dict_pop "type" config) kwargs)) /\
  (forall cls',
     register Z (timeseries_generators Z 0 minutes dtype_of_ints astype_ints)
       "GordoTimeseriesGenerator" cls'
     = Raise (ValueError (TypeAlreadyExists "GordoTimeseriesGenerator"))).
Proof.
  assert (H : register Z
                (TimeseriesGeneratorTypes_init Z
                   (default_type Z
                      (timeseries_generators Z 0 minutes dtype_of_ints
                         astype_ints)))
                "GordoTimeseriesGenerator"
                (fun kwargs =>
                   Gordo <$> GordoTimeseriesGenerator_new Z minutes kwargs)
              = Ok (timeseries_generators Z 0 minutes dtype_of_ints
                      astype_ints)) by reflexivity.
  destruct (register_then_create Z _ _ _ _ H) as (_ & _ & _ & Hc & Hr).
  split; [exact H|]. split; [exact Hc|exact Hr].
Defined.

(** ** The default generator and the estimator on an array *)

Lemma pad_x_and_y_lengths_witness :
  exists X' y',
    pad_x_and_y Z 0 dtype_of_ints astype_ints [[0]; [1]; [2]]
      [[10]; [11]; [12]] 0 = Ok (X', y') /\
    len X' = len [[0]; [1]; [2]] + 1 - 0 /\
    len y' = len [[0]; [1]; [2]] + 1 - 0.
Proof.
  destruct (pad_x_and_y Z 0 dtype_of_ints astype_ints [[0]; [1]; [2]]
              [[10]; [11]; [12]] 0)
    as [[X' y']|e] eqn:E; [|vm_compute in E; discriminate].
  exists X', y'. split; [reflexivity|].
  apply (pad_x_and_y_lengths Z 0 dtype_of_ints astype_ints [[0]; [1]; [2]]
           [[10]; [11]; [12]] 0 X' y');
    [lia|exact E].
Defined.

Lemma default_generator_batches_witness :
  exists tsg,
    create_keras_timeseriesgenerator Z 0 minutes dtype_of_ints astype_ints
      (NdArray [[0]; [1]; [2]; [3]; [4]])
      (NdArray [[10]; [11]; [12]; [13]; [14]]) 2 2 1 None = Ok tsg /\
    Sequence_len Z tsg
    = Ok ((Table_len Z (NdArray [[0]; [1]; [2]; [3]; [4]]) - 2 - 1 + 2) / 2).
Proof.
  destruct (default_generator_batches Z 0 minutes dtype_of_ints astype_ints
              (NdArray [[0]; [1]; [2]; [3]; [4]])
              (NdArray [[10]; [11]; [12]; [13]; [14]]) 2 2 1)
    as [H _]; [reflexivity|lia|lia|lia|].
  apply H. vm_compute. discriminate.
Defined.

Lemma predict_windows_witness :
  predict Z 0 lowest_row minutes dtype_of_ints astype_ints last_row
    (mkEstimator KerasLSTMForecast 2 32 None)
    (XArray (Array2 [[0]; [1]; [2]; [3]; [4]]))
  = Ok [[1]; [2]; [3]].
Proof.
  etrans.
  - apply (predict_windows Z 0 lowest_row minutes dtype_of_ints astype_ints
             last_row
             (mkEstimator KerasLSTMForecast 2 32 None)
             (Array2 [[0]; [1]; [2]; [3]; [4]]));
      [reflexivity|simpl; lia|vm_compute; reflexivity].
  - reflexivity.
Defined.

Lemma determine_offset_lstm_witness :
  determine_offset Z
    (Some (predict Z 0 lowest_row minutes dtype_of_ints astype_ints last_row
             (mkEstimator KerasLSTMForecast 2 32 None)))
    (fun _ => Ok []) (XArray (Array2 [[0]; [1]; [2]; [3]; [4]]))
  = Ok (2 + 1 - 1).
Proof.
  apply (determine_offset_lstm Z 0 lowest_row minutes dtype_of_ints
           astype_ints last_row
           (mkEstimator KerasLSTMForecast 2 32 None)
           (Array2 [[0]; [1]; [2]; [3]; [4]]) (fun _ => Ok []));
    [reflexivity|simpl; lia|vm_compute; reflexivity].
Defined.

Lemma score_targets_witness :
  score Z 0 lowest_row minutes dtype_of_ints astype_ints last_row
    (mkEstimator KerasLSTMForecast 2 32 None) false
    (XArray (Array2 [[0]; [1]; [2]; [3]; [4]]))
    (NdArray [[10]; [11]; [12]; [13]; [14]]) = NotFittedError /\
  exists t out,
    score Z 0 lowest_row minutes dtype_of_ints astype_ints last_row
      (mkEstimator KerasLSTMForecast 2 32 None) true
      (XArray (Array2 [[0]; [1]; [2]; [3]; [4]]))
      (NdArray [[10]; [11]; [12]; [13]; [14]]) = Fitted (Ok (t, out)) /\
    predict Z 0 lowest_row minutes dtype_of_ints astype_ints last_row
      (mkEstimator KerasLSTMForecast 2 32 None)
      (XArray (Array2 [[0]; [1]; [2]; [3]; [4]])) = Ok out /\
    Table_values Z t
    = drop (Z.to_nat (2 + 1 - 1))
        (Table_values Z (NdArray [[10]; [11]; [12]; [13]; [14]])) /\
    len (Table_values Z t) = len out.
Proof.
  apply (score_targets Z 0 lowest_row minutes dtype_of_ints astype_ints
           last_row
           (mkEstimator KerasLSTMForecast 2 32 None)
           (Array2 [[0]; [1]; [2]; [3]; [4]])
           (NdArray [[10]; [11]; [12]; [13]; [14]]));
    [reflexivity|simpl; lia|vm_compute; reflexivity|reflexivity].
Defined.

